(** * domain_check: candidate generation and availability checks

    A shallow embedding of the four scripts of the repository

      - [dns_check.py]       DNS "A"-record probe, module-level scan
      - [domain_finder.py]   WHOIS text heuristic, Streamlit driver
      - [rdap_checker.py]    RDAP over HTTP, command-line driver
      - [rdap_streamlit.py]  RDAP over HTTP, Streamlit driver

    together with the properties the specification states about them.

    Conventions of the model.

    - A Python [str] is a Rocq [string]: a sequence of 8-bit characters.
      The model is exact on ASCII text, which is all the scripts generate
      themselves (the alphabet, the TLD tables, the WHOIS markers);
      [lower] and [strip] leave characters above 127 alone.
    - The network is an oracle: a function from the query to either a
      value or a raised exception.  Every call is recorded, together with
      every [print], in a trace of events, so that "no request is issued"
      and "every candidate is checked" can be stated.
    - [exn] stands for the exceptions that derive from Python's
      [Exception]; a bare [except Exception] therefore catches all of
      them.
    - The Streamlit widget calls ([st.title], the progress bar, the
      rendered table) draw the page and feed nothing back into the scan;
      they are left out of the drivers. *)

From Stdlib Require Import Ascii ZArith Lia Sorted.
From stdpp Require Import base list strings gmap sorting pretty.

(** ** Python built-ins on [str] *)

Module Py.

(** [c] is one of [A]..[Z]. *)
Definition isupper (c : ascii) : bool :=
  let n := N_of_ascii c in ((65 <=? n) && (n <=? 90))%N.

Definition lower_char (c : ascii) : ascii :=
  if isupper c then ascii_of_N (N_of_ascii c + 32) else c.

(** [s.lower()] *)
Fixpoint lower (s : string) : string :=
  match s with
  | EmptyString => EmptyString
  | String c s' => String (lower_char c) (lower s')
  end.

(** The ASCII characters for which [str.isspace] holds: TAB, LF, VT, FF,
    CR, the four separators FS, GS, RS, US, and the blank. *)
Definition isspace (c : ascii) : bool :=
  match c with
  | "009" | "010" | "011" | "012" | "013"
  | "028" | "029" | "030" | "031" | " " => true
  | _ => false
  end%char.

Fixpoint lstrip (s : string) : string :=
  match s with
  | EmptyString => EmptyString
  | String c s' => if isspace c then lstrip s' else s
  end.

Fixpoint rstrip (s : string) : string :=
  match s with
  | EmptyString => EmptyString
  | String c s' =>
      match rstrip s' with
      | EmptyString => if isspace c then EmptyString else String c EmptyString
      | r => String c r
      end
  end.

(** [s.strip()] *)
Definition strip (s : string) : string := rstrip (lstrip s).

(** [s.split(sep)] for a one-character separator: never empty, and
    [''.split('.')] is [['']]. *)
Fixpoint split (sep : ascii) (s : string) : list string :=
  match s with
  | EmptyString => [EmptyString]
  | String c s' =>
      if decide (c = sep) then EmptyString :: split sep s'
      else match split sep s' with
           | p :: ps => String c p :: ps
           | [] => [String c EmptyString]
           end
  end.

(** [parts[-1]] on a list that [split] returned. *)
Definition last_part (parts : list string) : string := List.last parts EmptyString.

Fixpoint startswith (p s : string) : bool :=
  match p, s with
  | EmptyString, _ => true
  | String a p', String b s' => if decide (a = b) then startswith p' s' else false
  | String _ _, EmptyString => false
  end.

(** [needle in hay] *)
Fixpoint contains (needle hay : string) : bool :=
  startswith needle hay ||
  match hay with
  | EmptyString => false
  | String _ hay' => contains needle hay'
  end.

(** [''.join(comb)] for a tuple of characters. *)
Definition join (comb : list ascii) : string := String.string_of_list_ascii comb.

(** The characters a [str] iterates over. *)
Definition iter (s : string) : list ascii := String.list_ascii_of_string s.

(** [range(lo, hi)] *)
Definition range (lo hi : nat) : list nat := seq lo (hi - lo).

(** Truth value of an optional [str]: [None] and [''] are falsy. *)
Definition or_empty (o : option string) : string :=
  match o with
  | Some (String c s) => String c s
  | _ => EmptyString
  end.

End Py.

(** ** [itertools.product] *)

Module itertools.

(** One round of the documented equivalent of [product]:
    [result = [x+[y] for x in result for y in pool]]. *)
Definition product_step {A} (pool : list A) (result : list (list A)) : list (list A) :=
  x ← result; y ← pool; [x ++ [y]].

(** [product(pool, repeat=n)]: start from [[[]]] and run one round per
    copy of the pool. *)
Definition product {A} (pool : list A) (repeat : nat) : list (list A) :=
  Nat.iter repeat (product_step pool) [[]].

End itertools.

(** ** Exceptions, events and the effect monad *)

(** Failures of [dns.resolver.resolve]; all derive from [DNSException]. *)
Inductive dns_error := NXDOMAIN | NoAnswer | NoNameservers | LifetimeTimeout.

(** Failures of [requests.get]; all derive from [RequestException]. *)
Inductive request_error := ConnectionError | ConnectTimeout | ReadTimeout | TooManyRedirects.

Inductive exn :=
| ValueError (msg : string)
| DNSException (e : dns_error)
| RequestException (e : request_error) (msg : string)
| OtherError (msg : string).

(** The classes named in the [except] clauses of the scripts. *)
Definition is_DNSException (e : exn) : bool :=
  match e with DNSException _ => true | _ => false end.
Definition is_RequestException (e : exn) : bool :=
  match e with RequestException _ _ => true | _ => false end.
Definition is_Exception (e : exn) : bool := true.

(** [str(e)], as an f-string renders an exception. *)
Definition exn_str (e : exn) : string :=
  match e with
  | ValueError msg | RequestException _ msg | OtherError msg => msg
  | DNSException NXDOMAIN => "The DNS query name does not exist."
  | DNSException NoAnswer => "The DNS response does not contain an answer to the question."
  | DNSException NoNameservers => "All nameservers failed to answer the query."
  | DNSException LifetimeTimeout => "The resolution lifetime expired."
  end.

Inductive result (A : Type) :=
| Ret (a : A)
| Raise (e : exn).
Arguments Ret {A} a.
Arguments Raise {A} e.

(** What a run does to the outside world, in order. *)
Inductive event :=
| Stdout (line : string)
| DnsQuery (qname rdtype : string)
| WhoisQuery (domain : string)
| HttpGet (url : string) (timeout : Z).

(** A computation: the events it performed and how it ended. *)
Record M (A : Type) := Run { trace : list event; outcome : result A }.
Arguments Run {A} trace outcome.
Arguments trace {A} m.
Arguments outcome {A} m.

Global Instance M_ret : MRet M := λ A a, Run [] (Ret a).
Global Instance M_bind : MBind M := λ A B f m,
  match outcome m with
  | Ret a => let k := f a in Run (trace m ++ trace k) (outcome k)
  | Raise e => Run (trace m) (Raise e)
  end.

Definition raise {A} (e : exn) : M A := Run [] (Raise e).
Definition print (line : string) : M unit := Run [Stdout line] (Ret tt).

(** [try: body / except cls: handler]. *)
Definition try_except {A} (body : M A) (cls : exn → bool) (handler : exn → M A) : M A :=
  match outcome body with
  | Ret a => body
  | Raise e =>
      if cls e then let h := handler e in Run (trace body ++ trace h) (outcome h)
      else body
  end.

(** [for x in xs: body x] *)
Fixpoint for_each {A} (xs : list A) (body : A → M unit) : M unit :=
  match xs with
  | [] => mret tt
  | x :: xs' => body x;; for_each xs' body
  end.

(** A [for] loop that updates one local variable. *)
Fixpoint for_fold {A S} (xs : list A) (acc : S) (body : S → A → M S) : M S :=
  match xs with
  | [] => mret acc
  | x :: xs' => acc' ← body acc x; for_fold xs' acc' body
  end.

(** ** The upstream services *)

(** The address records of a DNS answer. *)
Definition dns_answer := list string.

(** The [domain_name] attribute python-whois parses: absent, one name or
    several. *)
Inductive domain_name_field :=
| DnNone
| DnStr (s : string)
| DnList (l : list string).

Record WhoisEntry := { text : option string; domain_name : domain_name_field }.

(** Python truth value of the [domain_name] attribute. *)
Definition truthy (d : domain_name_field) : bool :=
  match d with
  | DnNone | DnStr EmptyString | DnList [] => false
  | _ => true
  end.

Record Response := { status_code : Z }.

Definition dns_oracle := string → string → result dns_answer.
Definition whois_oracle := string → result WhoisEntry.
Definition http_oracle := string → result Response.

(** [dns.resolver.resolve(qname, rdtype)] *)
Definition call_resolve (up : dns_oracle) (qname rdtype : string) : M dns_answer :=
  Run [DnsQuery qname rdtype] (up qname rdtype).

(** [whois.whois(domain)] *)
Definition call_whois (up : whois_oracle) (domain : string) : M WhoisEntry :=
  Run [WhoisQuery domain] (up domain).

(** [requests.get(url, timeout=t)] *)
Definition call_get (up : http_oracle) (url : string) (timeout : Z) : M Response :=
  Run [HttpGet url timeout] (up url).

(** ** The candidate generator *)

(** [[''.join(c) for c in itertools.product(chars, repeat=n)]] *)
Definition labels (chars : string) (n : nat) : list string :=
  Py.join <$> itertools.product (Py.iter chars) n.

(** ** dns_check.py *)

Module dns_check.

Definition chars : string := "abcdefghijklmnopqrstuvwxyz".

(** Lines 9-13 with the alphabet and the bounds of [range] as
    parameters. *)
Definition generate (chars : string) (lo hi : nat) : list string :=
  i ← Py.range lo hi; labels chars i.

Definition domain_names : list string := generate chars 1 3.

Definition is_domain_available (resolve : dns_oracle) (domain : string) : M bool :=
  try_except
    (answers ← call_resolve resolve domain "A"; mret false)
    is_DNSException
    (λ _, mret true).

Definition tlds : list string := ["io"; "com"; "ai"; "de"; "me"; "app"].

(** The values [full_domain] takes in lines 32-34, in order. *)
Definition candidates (domain_names tlds : list string) : list string :=
  d ← domain_names; t ← tlds; [d +:+ "." +:+ t].

(** Lines 32-36 with the two lists as parameters. *)
Definition scan (resolve : dns_oracle) (domain_names tlds : list string) : M unit :=
  for_each domain_names (λ d,
    for_each tlds (λ t,
      let full_domain := d +:+ "." +:+ t in
      available ← is_domain_available resolve full_domain;
      if available : bool then print ("Potentially available: " +:+ full_domain)
      else mret tt)).

Definition main (resolve : dns_oracle) : M unit := scan resolve domain_names tlds.

End dns_check.

(** ** domain_finder.py *)

Module domain_finder.

Definition check_domain_whois (whois : whois_oracle) (domain : string) : M bool :=
  try_except
    (w ← call_whois whois domain;
     let raw_text := Py.lower (Py.or_empty (text w)) in
     if Py.contains "no match" raw_text
        || Py.contains "not found" raw_text
        || Py.contains "no data found" raw_text
     then mret true
     else if negb (truthy (domain_name w)) then mret true
     else mret false)
    is_Exception
    (λ _, mret false).

(** One entry of [results]: [{"Domain": ..., "Available": ...}]. *)
Record row := { Domain : string; Available : bool }.

Definition chars : string := "abcdefghijklmnopqrstuvwxyz".

(** Lines 68-70. *)
Definition possible_domains (domain_length : nat) : list string :=
  labels chars domain_length.

(** Lines 77-93: the loop that fills [results]. *)
Definition check_all (whois : whois_oracle) (tld : string)
    (possible_domains : list string) : M (list row) :=
  for_fold possible_domains [] (λ results name,
    let full_domain := name +:+ "." +:+ tld in
    available ← check_domain_whois whois full_domain;
    mret (results ++ [{| Domain := full_domain; Available := available |}])).

(** Lines 99-105: the rows kept for display, as markdown links. *)
Definition df_available (results : list row) : list string :=
  (λ r, "[" +:+ Domain r +:+ "](https://" +:+ Domain r +:+ ")")
    <$> filter (λ r, Available r = true) results.

(** The "Check Domains" branch of [main], for the two sidebar inputs. *)
Definition main (whois : whois_oracle) (tld : string) (domain_length : nat)
    : M (list row) :=
  check_all whois tld (possible_domains domain_length).

End domain_finder.

(** ** rdap_checker.py *)

Module rdap_checker.

Definition RDAP_SERVERS : gmap string string :=
  list_to_map
    [ ("io", "https://rdap.nic.io/domain/");
      ("ai", "https://rdap.nic.ai/domain/");
      ("app", "https://rdap.nic.app/domain/");
      ("xyz", "https://rdap.nic.xyz/domain/");
      ("dev", "https://rdap.nic.dev/domain/") ].

Definition check_domain_rdap (http : http_oracle) (domain : string) : M bool :=
  let parts := Py.split "." (Py.strip domain) in
  if (length parts <? 2)%nat then
    raise (ValueError ("Invalid domain format: " +:+ domain))
  else
    let tld := Py.lower (Py.last_part parts) in
    match RDAP_SERVERS !! tld with
    | None =>
        print ("No known RDAP server for TLD: " +:+ tld);;
        mret false
    | Some base_url =>
        let rdap_url := base_url +:+ domain in
        try_except
          (response ← call_get http rdap_url 10;
           if (status_code response =? 404)%Z then mret true
           else if (status_code response =? 200)%Z then mret false
           else
             print ("[WARN] Unexpected HTTP " +:+ pretty (status_code response)
                    +:+ " for " +:+ domain);;
             mret false)
          is_RequestException
          (λ e,
             print ("[ERROR] Request to " +:+ rdap_url +:+ " failed: " +:+ exn_str e);;
             mret false)
    end.

Definition test_domains : list string :=
  [ "google.io"; "something.ai"; "randomstuff.ai"; "mybrandnewdomain.io";
    "example.app"; "unusedxyz999.app"; "coolproject.dev"; "random999999.dev";
    "nonexistentexample123.xyz" ].

(** Lines 85-89 with the list as a parameter. *)
Definition run_checks (http : http_oracle) (test_domains : list string) : M unit :=
  print "=== RDAP Availability Checks ===";;
  for_each test_domains (λ d,
    is_avail ← check_domain_rdap http d;
    let status_str := if is_avail : bool then "AVAILABLE" else "TAKEN" in
    print (d +:+ " → " +:+ status_str)).

Definition main (http : http_oracle) : M unit := run_checks http test_domains.

End rdap_checker.

(** ** rdap_streamlit.py *)

Module rdap_streamlit.

Definition RDAP_SERVERS : gmap string string :=
  list_to_map
    [ ("io", "https://rdap.nic.io/domain/");
      ("ai", "https://rdap.nic.ai/domain/");
      ("app", "https://rdap.nic.app/domain/");
      ("xyz", "https://rdap.nic.xyz/domain/");
      ("dev", "https://rdap.nic.dev/domain/") ].

Definition check_domain_rdap (http : http_oracle) (domain : string) : M bool :=
  let parts := Py.split "." (Py.strip domain) in
  if (length parts <? 2)%nat then mret false
  else
    let tld := Py.lower (Py.last_part parts) in
    match RDAP_SERVERS !! tld with
    | None => mret false
    | Some base_url =>
        let rdap_url := base_url +:+ domain in
        try_except
          (response ← call_get http rdap_url 10;
           if (status_code response =? 404)%Z then mret true
           else if (status_code response =? 200)%Z then mret false
           else mret false)
          is_RequestException
          (λ _, mret false)
    end.

Definition letters : string := "abcdefghijklmnopqrstuvwxyz".

(** Lines 81-83. *)
Definition possible_domains (chosen_tld : string) (domain_length : nat) : list string :=
  (λ c, Py.join c +:+ "." +:+ chosen_tld)
    <$> itertools.product (Py.iter letters) domain_length.

(** Lines 90-96: the loop that fills [results_available]. *)
Definition check_all (http : http_oracle) (possible_domains : list string)
    : M (list string) :=
  for_fold possible_domains [] (λ results_available dom,
    is_avail ← check_domain_rdap http dom;
    if is_avail : bool then mret (results_available ++ [dom])
    else mret results_available).

(** The "Check Domains" branch of [main], for the two sidebar inputs. *)
Definition main (http : http_oracle) (chosen_tld : string) (domain_length : nat)
    : M (list string) :=
  check_all http (possible_domains chosen_tld domain_length).

End rdap_streamlit.

(** ** Verdicts *)

(** The three verdicts of the specification.  The scripts themselves
    return a boolean. *)
Inductive Verdict := Available | Taken | Unknown.

(** How the scripts read their boolean: ["AVAILABLE" if is_avail else
    "TAKEN"] (rdap_checker.py, line 88). *)
Definition verdict_of_bool (is_avail : bool) : Verdict :=
  if is_avail then Available else Taken.

(** The verdict of a call that returned; a call that raised has none. *)
Definition verdict (m : M bool) : option Verdict :=
  match outcome m with
  | Ret is_avail => Some (verdict_of_bool is_avail)
  | Raise _ => None
  end.

(** The local variables [parts] and [tld] of both [check_domain_rdap]
    functions (rdap_checker.py lines 36 and 41, rdap_streamlit.py lines 26
    and 30). *)
Definition rdap_parts (domain : string) : list string :=
  Py.split "." (Py.strip domain).
Definition rdap_tld (domain : string) : string :=
  Py.lower (Py.last_part (rdap_parts domain)).

(** A transport outcome that the RDAP functions handle: a response, or an
    exception of the class their [except] clause names. *)
Definition handled_by_rdap (r : result Response) : bool :=
  match r with
  | Ret _ => true
  | Raise e => is_RequestException e
  end.

(** The requests a trace holds. *)
Definition is_query (ev : event) : bool :=
  match ev with
  | Stdout _ => false
  | _ => true
  end.
Definition queries (tr : list event) : list event := filter (λ ev, is_query ev = true) tr.

(** Lexicographic order on tuples, over an order [R] on the symbols:
    the first position where two tuples differ decides, and a proper
    prefix comes first. *)
Inductive list_lex {A} (R : A → A → Prop) : list A → list A → Prop :=
| lex_shorter y ys : list_lex R [] (y :: ys)
| lex_head x y xs ys : R x y → list_lex R (x :: xs) (y :: ys)
| lex_tail x xs ys : list_lex R xs ys → list_lex R (x :: xs) (x :: ys).

(** The same order on [str]. *)
Definition str_lex (R : ascii → ascii → Prop) (s t : string) : Prop :=
  list_lex R (Py.iter s) (Py.iter t).

(** Python orders characters by code point. *)
Definition char_lt (a b : ascii) : Prop := (N_of_ascii a < N_of_ascii b)%N.

(** ** Observations on runs *)

(** The lines a run printed, in order. *)
Definition stdout_lines (tr : list event) : list string :=
  ev ← tr; match ev with Stdout line => [line] | _ => [] end.

(** The upstream call ended in an exception. *)
Definition raised {A} (r : result A) : bool :=
  match r with
  | Ret _ => false
  | Raise _ => true
  end.

(** The RDAP registry answered "not found" for this URL. *)
Definition answers_404 (http : http_oracle) (url : string) : bool :=
  match http url with
  | Ret response => (status_code response =? 404)%Z
  | Raise _ => false
  end.

(** The label shown for a lookup result in rdap_checker.py, line 88. *)
Definition status_str (is_avail : bool) : string :=
  if is_avail then "AVAILABLE" else "TAKEN".

(** * Properties *)

(** ** The model on small inputs *)

Example split_domain : Py.split "." (Py.strip "  aa.Io  ") = ["aa"; "Io"].
Proof. reflexivity. Qed.

Example split_no_dot : Py.split "." "localhost" = ["localhost"].
Proof. reflexivity. Qed.

Example split_empty_parts : Py.split "." "a..b." = ["a"; ""; "b"; ""].
Proof. reflexivity. Qed.

Example lower_ascii : Py.lower "No Match @[`{" = "no match @[`{".
Proof. reflexivity. Qed.

Example product_two : itertools.product [1; 2]%nat 2 = [[1; 1]; [1; 2]; [2; 1]; [2; 2]]%nat.
Proof. reflexivity. Qed.

Example generate_ab : dns_check.generate "ab" 1 3 = ["a"; "b"; "aa"; "ab"; "ba"; "bb"].
Proof. reflexivity. Qed.

Example domain_names_count : length dns_check.domain_names = 702%nat.
Proof. vm_compute. reflexivity. Qed.

(** Two candidates, the first answered 404 and the second 200: only the
    first is reported as available. *)
Example rdap_scan_two :
  rdap_streamlit.check_all
    (λ url, if decide (url = "https://rdap.nic.io/domain/a.io")
            then Ret {| status_code := 404 |} else Ret {| status_code := 200 |})
    ["a.io"; "b.io"]
  = Run [HttpGet "https://rdap.nic.io/domain/a.io" 10;
         HttpGet "https://rdap.nic.io/domain/b.io" 10]
        (Ret ["a.io"]).
Proof. vm_compute. reflexivity. Qed.

(** ** The effect monad *)

Section monad_facts.
Context {A B : Type}.

Lemma bind_ret (m : M A) (f : A → M B) a :
  outcome m = Ret a →
  m ≫= f = Run (trace m ++ trace (f a)) (outcome (f a)).
Proof. intros H. unfold mbind, M_bind. by rewrite H. Qed.

Lemma bind_raise (m : M A) (f : A → M B) e :
  outcome m = Raise e → m ≫= f = Run (trace m) (Raise e).
Proof. intros H. unfold mbind, M_bind. by rewrite H. Qed.

Lemma M_eta (m : M A) : Run (trace m) (outcome m) = m.
Proof. by destruct m. Qed.

Lemma M_eq (m1 m2 : M A) :
  trace m1 = trace m2 → outcome m1 = outcome m2 → m1 = m2.
Proof. destruct m1, m2; simpl; congruence. Qed.
End monad_facts.

(** ** The three classifiers *)

Lemma is_domain_available_spec resolve domain :
  dns_check.is_domain_available resolve domain =
  Run [DnsQuery domain "A"]
      match resolve domain "A" with
      | Ret _ => Ret false
      | Raise e => if is_DNSException e then Ret true else Raise e
      end.
Proof.
  unfold dns_check.is_domain_available, try_except, call_resolve, mbind, M_bind.
  simpl. destruct (resolve domain "A") as [ans|e]; simpl; [done|].
  by destruct (is_DNSException e).
Qed.

(** C1, as the code has it: NXDOMAIN gives Available and an answer gives
    Taken, and every other [DNSException] (no answer, server failure,
    timeout) gives Available as well; the function has no third verdict. *)
Theorem C1_dns_classifier (resolve : dns_oracle) (domain : string) :
  (resolve domain "A" = Raise (DNSException NXDOMAIN) →
     verdict (dns_check.is_domain_available resolve domain) = Some Available) ∧
  (∀ answers, resolve domain "A" = Ret answers →
     verdict (dns_check.is_domain_available resolve domain) = Some Taken) ∧
  (∀ e, resolve domain "A" = Raise (DNSException e) →
     verdict (dns_check.is_domain_available resolve domain) = Some Available).
Proof.
  rewrite is_domain_available_spec. unfold verdict. simpl.
  split_and!; [intros ->|intros ? ->|intros ? ->]; done.
Qed.

Lemma C1_dns_classifier_witness :
  verdict (dns_check.is_domain_available
             (λ _ _, Raise (DNSException NXDOMAIN)) "aa.io") = Some Available ∧
  verdict (dns_check.is_domain_available
             (λ _ _, Ret ["93.184.216.34"]) "aa.io") = Some Taken ∧
  verdict (dns_check.is_domain_available
             (λ _ _, Raise (DNSException NoNameservers)) "aa.io") = Some Available.
Proof.
  split_and!.
  - apply (C1_dns_classifier (λ _ _, Raise (DNSException NXDOMAIN)) "aa.io"). reflexivity.
  - apply (C1_dns_classifier (λ _ _, Ret ["93.184.216.34"]) "aa.io") with (answers := ["93.184.216.34"]).
    reflexivity.
  - apply (C1_dns_classifier (λ _ _, Raise (DNSException NoNameservers)) "aa.io")
      with (e := NoNameservers).
    reflexivity.
Defined.

(** C1 as stated fails: a resolver timeout is classified as Available. *)
Lemma C1_timeout_is_available :
  verdict (dns_check.is_domain_available
             (λ _ _, Raise (DNSException LifetimeTimeout)) "aa.io") = Some Available ∧
  verdict (dns_check.is_domain_available
             (λ _ _, Raise (DNSException LifetimeTimeout)) "aa.io") ≠ Some Unknown.
Proof. split; [reflexivity | discriminate]. Qed.

Lemma check_domain_whois_raise whois domain e :
  whois domain = Raise e →
  domain_finder.check_domain_whois whois domain = Run [WhoisQuery domain] (Ret false).
Proof.
  intros H.
  unfold domain_finder.check_domain_whois, try_except, call_whois, mbind, M_bind.
  simpl. by rewrite H.
Qed.

(** C2, as the code has it: when the WHOIS transport raises, whatever the
    exception, [check_domain_whois] returns [False], the value it also
    returns for a registered name; the verdict read from it is Taken. *)
Theorem C2_whois_transport_failure (whois : whois_oracle) (domain : string) (e : exn) :
  whois domain = Raise e →
  outcome (domain_finder.check_domain_whois whois domain) = Ret false ∧
  verdict (domain_finder.check_domain_whois whois domain) = Some Taken.
Proof. intros H. by rewrite (check_domain_whois_raise _ _ _ H). Qed.

Lemma C2_whois_transport_failure_witness :
  outcome (domain_finder.check_domain_whois
             (λ _, Raise (OtherError "timed out")) "ab.io") = Ret false ∧
  verdict (domain_finder.check_domain_whois
             (λ _, Raise (OtherError "timed out")) "ab.io") = Some Taken.
Proof.
  apply (C2_whois_transport_failure (λ _, Raise (OtherError "timed out")) "ab.io"
           (OtherError "timed out")).
  reflexivity.
Defined.

(** C2 as stated fails: a WHOIS timeout is classified as Taken. *)
Lemma C2_timeout_is_taken :
  verdict (domain_finder.check_domain_whois
             (λ _, Raise (OtherError "timed out")) "ab.io") = Some Taken ∧
  verdict (domain_finder.check_domain_whois
             (λ _, Raise (OtherError "timed out")) "ab.io") ≠ Some Unknown.
Proof. split; [reflexivity | discriminate]. Qed.

(** ** The two RDAP lookups *)

(** What [rdap_checker.check_domain_rdap] returns or raises. *)
Lemma checker_outcome http domain :
  outcome (rdap_checker.check_domain_rdap http domain) =
  if (length (rdap_parts domain) <? 2)%nat then
    Raise (ValueError ("Invalid domain format: " +:+ domain))
  else
    match rdap_checker.RDAP_SERVERS !! rdap_tld domain with
    | None => Ret false
    | Some base_url =>
        match http (base_url +:+ domain) with
        | Ret response => Ret (status_code response =? 404)%Z
        | Raise e => if is_RequestException e then Ret false else Raise e
        end
    end.
Proof.
  unfold rdap_checker.check_domain_rdap. fold (rdap_parts domain).
  destruct (length (rdap_parts domain) <? 2)%nat; [done|].
  fold (rdap_tld domain).
  destruct (rdap_checker.RDAP_SERVERS !! rdap_tld domain) as [base|]; [|done].
  unfold try_except, call_get, mbind, M_bind; simpl.
  destruct (http (base +:+ domain)) as [r|e]; simpl.
  - destruct (status_code r =? 404)%Z; [done|].
    by destruct (status_code r =? 200)%Z.
  - by destruct (is_RequestException e).
Qed.

(** The requests [rdap_checker.check_domain_rdap] issues. *)
Lemma checker_queries http domain :
  queries (trace (rdap_checker.check_domain_rdap http domain)) =
  if (length (rdap_parts domain) <? 2)%nat then []
  else
    match rdap_checker.RDAP_SERVERS !! rdap_tld domain with
    | None => []
    | Some base_url => [HttpGet (base_url +:+ domain) 10]
    end.
Proof.
  unfold rdap_checker.check_domain_rdap. fold (rdap_parts domain).
  destruct (length (rdap_parts domain) <? 2)%nat; [done|].
  fold (rdap_tld domain).
  destruct (rdap_checker.RDAP_SERVERS !! rdap_tld domain) as [base|]; [|done].
  unfold try_except, call_get, mbind, M_bind; simpl.
  destruct (http (base +:+ domain)) as [r|e]; simpl.
  - destruct (status_code r =? 404)%Z; [done|].
    by destruct (status_code r =? 200)%Z.
  - by destruct (is_RequestException e).
Qed.

(** The same two facts for [rdap_streamlit.check_domain_rdap]. *)
Lemma streamlit_outcome http domain :
  outcome (rdap_streamlit.check_domain_rdap http domain) =
  if (length (rdap_parts domain) <? 2)%nat then Ret false
  else
    match rdap_streamlit.RDAP_SERVERS !! rdap_tld domain with
    | None => Ret false
    | Some base_url =>
        match http (base_url +:+ domain) with
        | Ret response => Ret (status_code response =? 404)%Z
        | Raise e => if is_RequestException e then Ret false else Raise e
        end
    end.
Proof.
  unfold rdap_streamlit.check_domain_rdap. fold (rdap_parts domain).
  destruct (length (rdap_parts domain) <? 2)%nat; [done|].
  fold (rdap_tld domain).
  destruct (rdap_streamlit.RDAP_SERVERS !! rdap_tld domain) as [base|]; [|done].
  unfold try_except, call_get, mbind, M_bind; simpl.
  destruct (http (base +:+ domain)) as [r|e]; simpl.
  - destruct (status_code r =? 404)%Z; [done|].
    by destruct (status_code r =? 200)%Z.
  - by destruct (is_RequestException e).
Qed.

Lemma streamlit_trace http domain :
  trace (rdap_streamlit.check_domain_rdap http domain) =
  if (length (rdap_parts domain) <? 2)%nat then []
  else
    match rdap_streamlit.RDAP_SERVERS !! rdap_tld domain with
    | None => []
    | Some base_url => [HttpGet (base_url +:+ domain) 10]
    end.
Proof.
  unfold rdap_streamlit.check_domain_rdap. fold (rdap_parts domain).
  destruct (length (rdap_parts domain) <? 2)%nat; [done|].
  fold (rdap_tld domain).
  destruct (rdap_streamlit.RDAP_SERVERS !! rdap_tld domain) as [base|]; [|done].
  unfold try_except, call_get, mbind, M_bind; simpl.
  destruct (http (base +:+ domain)) as [r|e]; simpl.
  - destruct (status_code r =? 404)%Z; [done|].
    by destruct (status_code r =? 200)%Z.
  - by destruct (is_RequestException e).
Qed.

Lemma RDAP_SERVERS_same : rdap_checker.RDAP_SERVERS = rdap_streamlit.RDAP_SERVERS.
Proof. reflexivity. Qed.

Lemma two_parts domain :
  (2 ≤ length (rdap_parts domain))%nat → (length (rdap_parts domain) <? 2)%nat = false.
Proof. intros H. apply Nat.ltb_ge. lia. Qed.

(** C3, as the code has it: on a TLD with a configured endpoint both RDAP
    functions map status 404 to Available and status 200 to Taken; any
    other status and any [RequestException] give [False] too, which reads
    as Taken.  Neither function has an Unknown verdict. *)
Theorem C3_rdap_classifier (http : http_oracle) (domain base_url : string) :
  (2 ≤ length (rdap_parts domain))%nat →
  rdap_checker.RDAP_SERVERS !! rdap_tld domain = Some base_url →
  let v_checker := verdict (rdap_checker.check_domain_rdap http domain) in
  let v_streamlit := verdict (rdap_streamlit.check_domain_rdap http domain) in
  (∀ r, http (base_url +:+ domain) = Ret r → status_code r = 404%Z →
     v_checker = Some Available ∧ v_streamlit = Some Available) ∧
  (∀ r, http (base_url +:+ domain) = Ret r → status_code r = 200%Z →
     v_checker = Some Taken ∧ v_streamlit = Some Taken) ∧
  (∀ r, http (base_url +:+ domain) = Ret r →
     status_code r ≠ 404%Z → status_code r ≠ 200%Z →
     v_checker = Some Taken ∧ v_streamlit = Some Taken) ∧
  (∀ e msg, http (base_url +:+ domain) = Raise (RequestException e msg) →
     v_checker = Some Taken ∧ v_streamlit = Some Taken).
Proof.
  intros Hparts Hsrv. unfold verdict.
  rewrite checker_outcome, streamlit_outcome, <- RDAP_SERVERS_same.
  rewrite (two_parts _ Hparts), Hsrv. simpl.
  split_and!.
  - intros r -> ->. done.
  - intros r -> ->. done.
  - intros r -> H404 _. apply Z.eqb_neq in H404. by rewrite H404.
  - intros e msg ->. done.
Qed.

Lemma C3_rdap_classifier_witness :
  verdict (rdap_checker.check_domain_rdap
             (λ _, Ret {| status_code := 404 |}) "aa.io") = Some Available ∧
  verdict (rdap_streamlit.check_domain_rdap
             (λ _, Ret {| status_code := 404 |}) "aa.io") = Some Available.
Proof.
  assert (Hp : (2 ≤ length (rdap_parts "aa.io"))%nat) by (vm_compute; lia).
  assert (Hs : rdap_checker.RDAP_SERVERS !! rdap_tld "aa.io"
               = Some "https://rdap.nic.io/domain/") by (vm_compute; reflexivity).
  apply (proj1 (C3_rdap_classifier (λ _, Ret {| status_code := 404 |}) "aa.io"
                  "https://rdap.nic.io/domain/" Hp Hs) {| status_code := 404 |});
    reflexivity.
Defined.

(** C3 as stated fails: status 503 on a configured TLD is classified as
    Taken, by both functions. *)
Lemma C3_status_503_is_taken :
  verdict (rdap_checker.check_domain_rdap
             (λ _, Ret {| status_code := 503 |}) "aa.io") = Some Taken ∧
  verdict (rdap_streamlit.check_domain_rdap
             (λ _, Ret {| status_code := 503 |}) "aa.io") = Some Taken ∧
  verdict (rdap_checker.check_domain_rdap
             (λ _, Ret {| status_code := 503 |}) "aa.io") ≠ Some Unknown.
Proof. vm_compute. split_and!; [reflexivity | reflexivity | discriminate]. Qed.

(** C4, as the code has it: for a candidate whose TLD has no configured
    endpoint both RDAP functions return [False] without issuing a
    request; the verdict read from it is Taken, never Available. *)
Theorem C4_unconfigured_tld (http : http_oracle) (domain : string) :
  (2 ≤ length (rdap_parts domain))%nat →
  rdap_checker.RDAP_SERVERS !! rdap_tld domain = None →
  verdict (rdap_checker.check_domain_rdap http domain) = Some Taken ∧
  verdict (rdap_streamlit.check_domain_rdap http domain) = Some Taken ∧
  queries (trace (rdap_checker.check_domain_rdap http domain)) = [] ∧
  queries (trace (rdap_streamlit.check_domain_rdap http domain)) = [].
Proof.
  intros Hparts Hsrv. unfold verdict.
  rewrite checker_outcome, streamlit_outcome, checker_queries, streamlit_trace.
  rewrite <- RDAP_SERVERS_same, (two_parts _ Hparts), Hsrv. done.
Qed.

Lemma C4_unconfigured_tld_witness :
  verdict (rdap_checker.check_domain_rdap
             (λ _, Ret {| status_code := 404 |}) "aa.com") = Some Taken ∧
  verdict (rdap_streamlit.check_domain_rdap
             (λ _, Ret {| status_code := 404 |}) "aa.com") = Some Taken ∧
  queries (trace (rdap_checker.check_domain_rdap
             (λ _, Ret {| status_code := 404 |}) "aa.com")) = [] ∧
  queries (trace (rdap_streamlit.check_domain_rdap
             (λ _, Ret {| status_code := 404 |}) "aa.com")) = [].
Proof.
  apply (C4_unconfigured_tld (λ _, Ret {| status_code := 404 |}) "aa.com").
  - vm_compute; lia.
  - vm_compute; reflexivity.
Defined.

(** C4 as stated fails: "aa.com" has no configured endpoint and is
    classified as Taken. *)
Lemma C4_unconfigured_is_taken :
  rdap_checker.RDAP_SERVERS !! rdap_tld "aa.com" = None ∧
  verdict (rdap_checker.check_domain_rdap
             (λ _, Ret {| status_code := 404 |}) "aa.com") = Some Taken ∧
  verdict (rdap_streamlit.check_domain_rdap
             (λ _, Ret {| status_code := 404 |}) "aa.com") = Some Taken ∧
  verdict (rdap_checker.check_domain_rdap
             (λ _, Ret {| status_code := 404 |}) "aa.com") ≠ Some Unknown.
Proof. vm_compute. split_and!; [reflexivity..|discriminate]. Qed.

(** C9: on an input with at least two dot-separated parts the two
    [check_domain_rdap] functions end the same way for the same HTTP
    oracle, and return the same boolean whenever the transport returns a
    response or raises a [RequestException]; on an input with fewer
    than two parts [rdap_checker] raises [ValueError] and
    [rdap_streamlit] returns [False]. *)
Theorem C9_rdap_variants_agree (http : http_oracle) (domain : string) :
  ((2 ≤ length (rdap_parts domain))%nat →
     outcome (rdap_checker.check_domain_rdap http domain)
     = outcome (rdap_streamlit.check_domain_rdap http domain)) ∧
  ((2 ≤ length (rdap_parts domain))%nat →
     (∀ url, handled_by_rdap (http url) = true) →
     ∃ b, outcome (rdap_checker.check_domain_rdap http domain) = Ret b ∧
          outcome (rdap_streamlit.check_domain_rdap http domain) = Ret b) ∧
  ((length (rdap_parts domain) < 2)%nat →
     outcome (rdap_checker.check_domain_rdap http domain)
       = Raise (ValueError ("Invalid domain format: " +:+ domain)) ∧
     outcome (rdap_streamlit.check_domain_rdap http domain) = Ret false).
Proof.
  rewrite checker_outcome, streamlit_outcome, <- RDAP_SERVERS_same.
  split_and!.
  - intros H. by rewrite (two_parts _ H).
  - intros H Hh. rewrite (two_parts _ H).
    destruct (rdap_checker.RDAP_SERVERS !! rdap_tld domain) as [base|]; [|by eauto].
    specialize (Hh (base +:+ domain)).
    destruct (http (base +:+ domain)) as [r|e]; simpl in Hh; [by eauto|].
    rewrite Hh. by eauto.
  - intros H. apply Nat.ltb_lt in H. by rewrite H.
Qed.

Lemma C9_rdap_variants_agree_witness :
  outcome (rdap_checker.check_domain_rdap (λ _, Ret {| status_code := 404 |}) "aa.io")
  = outcome (rdap_streamlit.check_domain_rdap (λ _, Ret {| status_code := 404 |}) "aa.io") ∧
  (outcome (rdap_checker.check_domain_rdap (λ _, Ret {| status_code := 404 |}) "localhost")
     = Raise (ValueError ("Invalid domain format: " +:+ "localhost")) ∧
   outcome (rdap_streamlit.check_domain_rdap (λ _, Ret {| status_code := 404 |}) "localhost")
     = Ret false).
Proof.
  split.
  - apply (C9_rdap_variants_agree (λ _, Ret {| status_code := 404 |}) "aa.io").
    vm_compute; lia.
  - apply (C9_rdap_variants_agree (λ _, Ret {| status_code := 404 |}) "localhost").
    vm_compute; lia.
Defined.

(** ** Substring search and lower-casing *)

Lemma lower_app (a b : string) : Py.lower (a +:+ b) = Py.lower a +:+ Py.lower b.
Proof. induction a as [|c a IH]; simpl; [done|]. by rewrite IH. Qed.

Lemma startswith_app (p rest : string) : Py.startswith p (p +:+ rest) = true.
Proof.
  induction p as [|c p IH]; simpl; [done|].
  by rewrite decide_True.
Qed.

Lemma startswith_inv (p s : string) :
  Py.startswith p s = true → ∃ rest, s = p +:+ rest.
Proof.
  revert s. induction p as [|c p IH]; intros s H; simpl in *.
  - by exists s.
  - destruct s as [|b s]; [done|].
    destruct (decide (c = b)) as [->|]; [|done].
    destruct (IH _ H) as [rest ->]. by exists rest.
Qed.

Lemma contains_startswith (needle hay : string) :
  Py.startswith needle hay = true → Py.contains needle hay = true.
Proof. intros H. destruct hay; simpl; by rewrite H. Qed.

(** The model of [needle in hay] finds exactly the substrings. *)
Lemma contains_spec (needle hay : string) :
  Py.contains needle hay = true ↔ ∃ pre post, hay = pre +:+ needle +:+ post.
Proof.
  split.
  - induction hay as [|c hay IH]; simpl; intros H.
    + apply orb_true_iff in H as [H|H]; [|done].
      apply startswith_inv in H as [rest ->]. by exists EmptyString, rest.
    + apply orb_true_iff in H as [H|H].
      * apply startswith_inv in H as [rest ->]. by exists EmptyString, rest.
      * destruct (IH H) as (pre & post & ->). by exists (String c pre), post.
  - intros (pre & post & ->).
    induction pre as [|c pre IH].
    + change (EmptyString +:+ needle +:+ post) with (needle +:+ post).
      apply contains_startswith, startswith_app.
    + simpl. simpl in IH. rewrite IH. apply orb_true_r.
Qed.

Lemma or_empty_Some (raw : string) : Py.or_empty (Some raw) = raw.
Proof. by destruct raw. Qed.

(** ** The WHOIS lookup *)

(** [check_domain_whois] issues one query and always returns. *)
Lemma check_domain_whois_total whois domain :
  ∃ b, domain_finder.check_domain_whois whois domain = Run [WhoisQuery domain] (Ret b).
Proof.
  unfold domain_finder.check_domain_whois, try_except, call_whois, mbind, M_bind.
  simpl. destruct (whois domain) as [w|e]; simpl; [|by eauto].
  destruct (_ || _ || _); simpl; [by eauto|].
  destruct (negb _); simpl; by eauto.
Qed.

Lemma check_domain_whois_ext whois1 whois2 domain :
  whois1 domain = whois2 domain →
  domain_finder.check_domain_whois whois1 domain
  = domain_finder.check_domain_whois whois2 domain.
Proof.
  intros H.
  unfold domain_finder.check_domain_whois, try_except, call_whois, mbind, M_bind.
  simpl. by rewrite H.
Qed.

(** C10: when the raw WHOIS text holds, in any letter case, one of the
    three markers, [check_domain_whois] returns [True] whatever the
    parsed [domain_name] field is: the marker test on the lower-cased
    text comes first. *)
Theorem C10_marker_precedence (whois : whois_oracle) (domain : string)
    (w : WhoisEntry) (raw pre u post marker : string) :
  whois domain = Ret w →
  text w = Some raw →
  raw = pre +:+ u +:+ post →
  Py.lower u = marker →
  marker ∈ ["no match"; "not found"; "no data found"] →
  outcome (domain_finder.check_domain_whois whois domain) = Ret true ∧
  verdict (domain_finder.check_domain_whois whois domain) = Some Available.
Proof.
  intros Hw Ht -> Hu Hm.
  assert (Hc : Py.contains marker (Py.lower (Py.or_empty (text w))) = true).
  { rewrite Ht, or_empty_Some, !lower_app, Hu. apply contains_spec. eauto. }
  unfold verdict, domain_finder.check_domain_whois, try_except, call_whois, mbind, M_bind.
  simpl. rewrite Hw. simpl.
  set (raw_text := Py.lower (Py.or_empty (text w))) in *.
  assert (Hor : Py.contains "no match" raw_text || Py.contains "not found" raw_text
                || Py.contains "no data found" raw_text = true).
  { rewrite !elem_of_cons in Hm. destruct Hm as [->|[->|[->|Hm]]].
    - by rewrite Hc.
    - rewrite Hc. by rewrite orb_true_r.
    - rewrite Hc. by rewrite orb_true_r.
    - by apply elem_of_nil in Hm. }
  by rewrite Hor.
Qed.

Lemma C10_marker_precedence_witness :
  outcome (domain_finder.check_domain_whois
             (λ _, Ret {| text := Some "Domain EXAMPLE.COM: No Match in registry";
                          domain_name := DnStr "EXAMPLE.COM" |})
             "example.com") = Ret true ∧
  verdict (domain_finder.check_domain_whois
             (λ _, Ret {| text := Some "Domain EXAMPLE.COM: No Match in registry";
                          domain_name := DnStr "EXAMPLE.COM" |})
             "example.com") = Some Available.
Proof.
  apply (C10_marker_precedence
           (λ _, Ret {| text := Some "Domain EXAMPLE.COM: No Match in registry";
                        domain_name := DnStr "EXAMPLE.COM" |})
           "example.com"
           {| text := Some "Domain EXAMPLE.COM: No Match in registry";
              domain_name := DnStr "EXAMPLE.COM" |}
           "Domain EXAMPLE.COM: No Match in registry"
           "Domain EXAMPLE.COM: " "No Match" " in registry" "no match").
  - reflexivity.
  - reflexivity.
  - reflexivity.
  - reflexivity.
  - apply list_elem_of_here.
Defined.

(** ** Loops *)

Lemma for_fold_ext {A S} (xs : list A) (acc : S) (body1 body2 : S → A → M S) :
  (∀ acc' x, x ∈ xs → body1 acc' x = body2 acc' x) →
  for_fold xs acc body1 = for_fold xs acc body2.
Proof.
  revert acc. induction xs as [|x xs IH]; intros acc H; simpl; [done|].
  rewrite (H acc x) by apply list_elem_of_here.
  unfold mbind, M_bind. destruct (outcome (body2 acc x)) as [acc'|e]; [|done].
  rewrite IH; [done|]. intros ???. apply H. by apply list_elem_of_further.
Qed.

Lemma for_each_returns {A} (xs : list A) (body : A → M unit) :
  (∀ x, x ∈ xs → outcome (body x) = Ret tt) →
  outcome (for_each xs body) = Ret tt.
Proof.
  induction xs as [|x xs IH]; intros H; simpl; [done|].
  unfold mbind, M_bind. rewrite (H x) by apply list_elem_of_here. simpl.
  apply IH. intros ??. apply H. by apply list_elem_of_further.
Qed.

(** A body that raises ends the loop there: nothing after it runs. *)
Lemma for_each_aborts {A} (xs ys : list A) (x : A) (body : A → M unit) e :
  (∀ y, y ∈ xs → outcome (body y) = Ret tt) →
  outcome (body x) = Raise e →
  for_each (xs ++ x :: ys) body
  = Run (trace (for_each xs body) ++ trace (body x)) (Raise e).
Proof.
  induction xs as [|y xs IH]; intros H Hx; simpl.
  - unfold mbind, M_bind. by rewrite Hx.
  - unfold mbind, M_bind. rewrite (H y) by apply list_elem_of_here. simpl.
    rewrite IH; [|intros ??; apply H; by apply list_elem_of_further|done].
    simpl. by rewrite app_assoc.
Qed.

(** ** The WHOIS scan *)

Section whois_scan.
Variable whois : whois_oracle.
Variable tld : string.

Let full (name : string) : string := name +:+ "." +:+ tld.

(** The loop invariant of lines 77-93, for any starting [results]. *)
Lemma check_all_from (names : list string) (acc : list domain_finder.row) :
  ∃ rows,
    for_fold names acc (λ results name,
      available ← domain_finder.check_domain_whois whois (full name);
      mret (results ++ [{| domain_finder.Domain := full name;
                           domain_finder.Available := available |}]))
    = Run (WhoisQuery <$> (full <$> names)) (Ret (acc ++ rows)) ∧
    Forall2 (λ name r,
               domain_finder.Domain r = full name ∧
               outcome (domain_finder.check_domain_whois whois (full name))
               = Ret (domain_finder.Available r))
            names rows.
Proof.
  revert acc. induction names as [|name names IH]; intros acc; simpl.
  - exists []. by rewrite app_nil_r.
  - destruct (check_domain_whois_total whois (full name)) as [b Hb].
    destruct (IH (acc ++ [{| domain_finder.Domain := full name;
                             domain_finder.Available := b |}])) as (rows & Hrun & Hrows).
    exists ({| domain_finder.Domain := full name; domain_finder.Available := b |} :: rows).
    split.
    + cbn [for_fold]. rewrite Hb.
      erewrite (bind_ret (Run _ _ ≫= _)) by reflexivity.
      rewrite Hrun. simpl. by rewrite <- app_assoc.
    + constructor; [|done]. simpl. by rewrite Hb.
Qed.
End whois_scan.

(** C7, as the code has it: for every list of names and every WHOIS
    oracle the scan returns, with exactly one row per candidate, in
    generation order, each carrying the result of that candidate's own
    lookup; every candidate is queried, in order; and the row of a
    candidate whose lookup raised has [Available = False], which reads as
    Taken. *)
Theorem C7_partial_failure (whois : whois_oracle) (tld : string) (names : list string) :
  ∃ results,
    outcome (domain_finder.check_all whois tld names) = Ret results ∧
    Forall2 (λ name r,
               domain_finder.Domain r = name +:+ "." +:+ tld ∧
               outcome (domain_finder.check_domain_whois whois (name +:+ "." +:+ tld))
               = Ret (domain_finder.Available r))
            names results ∧
    trace (domain_finder.check_all whois tld names)
    = WhoisQuery <$> ((λ name, name +:+ "." +:+ tld) <$> names) ∧
    (∀ i name e,
       names !! i = Some name →
       whois (name +:+ "." +:+ tld) = Raise e →
       results !! i = Some {| domain_finder.Domain := name +:+ "." +:+ tld;
                              domain_finder.Available := false |}).
Proof.
  destruct (check_all_from whois tld names []) as (rows & Hrun & Hrows).
  exists rows. unfold domain_finder.check_all. rewrite Hrun. simpl.
  split_and!; [done..|].
  intros i name e Hi He.
  destruct (Forall2_lookup_l _ _ _ _ _ Hrows Hi) as (r & Hr & Hd & Ho).
  rewrite Hr. f_equal.
  rewrite (check_domain_whois_raise _ _ _ He) in Ho. simpl in Ho.
  destruct r; simpl in *. congruence.
Qed.

Lemma C7_partial_failure_witness :
  ∃ results,
    outcome (domain_finder.check_all
               (λ d, if decide (d = "ab.io") then Raise (OtherError "timed out")
                     else Ret {| text := Some "No match for domain"; domain_name := DnNone |})
               "io" ["aa"; "ab"; "ac"]) = Ret results ∧
    length results = 3%nat ∧
    results !! 1%nat = Some {| domain_finder.Domain := "ab.io";
                               domain_finder.Available := false |}.
Proof.
  destruct (C7_partial_failure
              (λ d, if decide (d = "ab.io") then Raise (OtherError "timed out")
                    else Ret {| text := Some "No match for domain"; domain_name := DnNone |})
              "io" ["aa"; "ab"; "ac"]) as (results & Hout & Hrows & _ & Hfail).
  exists results. split_and!.
  - exact Hout.
  - symmetry. exact (Forall2_length _ _ _ Hrows).
  - apply (Hfail 1%nat "ab" (OtherError "timed out")); reflexivity.
Defined.

(** C7 as stated fails: in the scan of aa.io, ab.io, ac.io where the
    lookup of ab.io times out, all three are checked and get a row, and
    the verdict of ab.io is Taken. *)
Lemma C7_failed_lookup_is_taken :
  domain_finder.check_all
    (λ d, if decide (d = "ab.io") then Raise (OtherError "timed out")
          else Ret {| text := Some "No match for domain"; domain_name := DnNone |})
    "io" ["aa"; "ab"; "ac"]
  = Run [WhoisQuery "aa.io"; WhoisQuery "ab.io"; WhoisQuery "ac.io"]
        (Ret [ {| domain_finder.Domain := "aa.io"; domain_finder.Available := true |};
               {| domain_finder.Domain := "ab.io"; domain_finder.Available := false |};
               {| domain_finder.Domain := "ac.io"; domain_finder.Available := true |} ]) ∧
  verdict_of_bool false = Taken ∧
  verdict_of_bool false ≠ Unknown.
Proof. split_and!; [vm_compute; reflexivity | reflexivity | discriminate]. Qed.

(** ** Reproducible scans *)

Lemma streamlit_check_ext http1 http2 domain :
  (∀ base_url, rdap_streamlit.RDAP_SERVERS !! rdap_tld domain = Some base_url →
               http1 (base_url +:+ domain) = http2 (base_url +:+ domain)) →
  rdap_streamlit.check_domain_rdap http1 domain
  = rdap_streamlit.check_domain_rdap http2 domain.
Proof.
  intros H. apply M_eq.
  - by rewrite !streamlit_trace.
  - rewrite !streamlit_outcome.
    destruct (rdap_streamlit.RDAP_SERVERS !! rdap_tld domain) as [base|]; [|done].
    by rewrite (H base).
Qed.

(** C8: two scans with the same inputs whose upstreams answer alike on
    every candidate of the scan are equal: the same events in the same
    order and the same report, element for element.  This holds for the
    WHOIS driver and for the RDAP driver. *)
Theorem C8_scan_reproducible :
  (∀ (whois1 whois2 : whois_oracle) (tld : string) (domain_length : nat),
     (∀ name, name ∈ domain_finder.possible_domains domain_length →
              whois1 (name +:+ "." +:+ tld) = whois2 (name +:+ "." +:+ tld)) →
     domain_finder.main whois1 tld domain_length
     = domain_finder.main whois2 tld domain_length) ∧
  (∀ (http1 http2 : http_oracle) (chosen_tld : string) (domain_length : nat),
     (∀ dom base_url,
        dom ∈ rdap_streamlit.possible_domains chosen_tld domain_length →
        rdap_streamlit.RDAP_SERVERS !! rdap_tld dom = Some base_url →
        http1 (base_url +:+ dom) = http2 (base_url +:+ dom)) →
     rdap_streamlit.main http1 chosen_tld domain_length
     = rdap_streamlit.main http2 chosen_tld domain_length).
Proof.
  split.
  - intros whois1 whois2 tld n H.
    unfold domain_finder.main, domain_finder.check_all.
    apply for_fold_ext. intros acc name Hin.
    by rewrite (check_domain_whois_ext whois1 whois2 _ (H name Hin)).
  - intros http1 http2 tld n H.
    unfold rdap_streamlit.main, rdap_streamlit.check_all.
    apply for_fold_ext. intros acc dom Hin.
    rewrite (streamlit_check_ext http1 http2 dom); [done|].
    intros base Hb. by apply H.
Qed.

Lemma C8_scan_reproducible_witness :
  domain_finder.main
    (λ _, Raise (OtherError "rate limited")) "io" 1
  = domain_finder.main
      (λ d, if (String.length d =? 0)%nat
            then Ret {| text := None; domain_name := DnNone |}
            else Raise (OtherError "rate limited")) "io" 1.
Proof.
  apply (proj1 C8_scan_reproducible).
  intros name _. destruct name; reflexivity.
Defined.

(** ** Exceptions that leave a lookup *)

Lemma checker_raises http domain :
  (length (rdap_parts domain) < 2)%nat →
  rdap_checker.check_domain_rdap http domain
  = Run [] (Raise (ValueError ("Invalid domain format: " +:+ domain))).
Proof.
  intros H. apply Nat.ltb_lt in H.
  unfold rdap_checker.check_domain_rdap. fold (rdap_parts domain). by rewrite H.
Qed.

Lemma checker_returns http domain :
  (2 ≤ length (rdap_parts domain))%nat →
  (∀ url, handled_by_rdap (http url) = true) →
  ∃ b, outcome (rdap_checker.check_domain_rdap http domain) = Ret b.
Proof.
  intros H Hh. rewrite checker_outcome, (two_parts _ H).
  destruct (rdap_checker.RDAP_SERVERS !! rdap_tld domain) as [base|]; [|by eauto].
  specialize (Hh (base +:+ domain)).
  destruct (http (base +:+ domain)) as [r|e]; simpl in Hh; [by eauto|].
  rewrite Hh. by eauto.
Qed.

Lemma run_checks_body_returns http d b :
  outcome (rdap_checker.check_domain_rdap http d) = Ret b →
  outcome (is_avail ← rdap_checker.check_domain_rdap http d;
           print (d +:+ " → " +:+ (if is_avail : bool then "AVAILABLE" else "TAKEN")))
  = Ret tt.
Proof. intros H. by rewrite (bind_ret _ _ b H). Qed.

(** C6, as the code has it.  [rdap_checker.check_domain_rdap] returns a
    boolean on every input with at least two dot-separated parts as long
    as the transport returns a response or raises a [RequestException];
    on an input with fewer than two parts it raises [ValueError] before
    any request is issued, and that exception leaves the driver loop of
    the script, which checks nothing after it.  The script has no
    configuration-error class; [rdap_streamlit.check_domain_rdap] under
    the same transport condition, and [check_domain_whois] under any,
    always return. *)
Theorem C6_lookup_exceptions (http : http_oracle) (domain : string) :
  ((2 ≤ length (rdap_parts domain))%nat →
   (∀ url, handled_by_rdap (http url) = true) →
   ∃ b, outcome (rdap_checker.check_domain_rdap http domain) = Ret b) ∧
  ((length (rdap_parts domain) < 2)%nat →
   rdap_checker.check_domain_rdap http domain
   = Run [] (Raise (ValueError ("Invalid domain format: " +:+ domain)))) ∧
  ((length (rdap_parts domain) < 2)%nat →
   ∀ before after,
     (∀ d, d ∈ before → ∃ b, outcome (rdap_checker.check_domain_rdap http d) = Ret b) →
     outcome (rdap_checker.run_checks http (before ++ domain :: after))
     = Raise (ValueError ("Invalid domain format: " +:+ domain)) ∧
     trace (rdap_checker.run_checks http (before ++ domain :: after))
     = trace (rdap_checker.run_checks http before)) ∧
  ((∀ url, handled_by_rdap (http url) = true) →
   ∃ b, outcome (rdap_streamlit.check_domain_rdap http domain) = Ret b) ∧
  (∀ whois : whois_oracle,
   ∃ b, outcome (domain_finder.check_domain_whois whois domain) = Ret b).
Proof.
  split_and!.
  - apply checker_returns.
  - apply checker_raises.
  - intros Hbad before after Hbefore.
    pose proof (checker_raises http domain Hbad) as Hraise.
    unfold rdap_checker.run_checks.
    rewrite (for_each_aborts before after domain _
               (ValueError ("Invalid domain format: " +:+ domain))).
    + rewrite !(bind_ret (print _) _ tt) by reflexivity. simpl.
      rewrite (bind_raise _ _ _ (f_equal outcome Hraise)), Hraise. simpl.
      by rewrite app_nil_r.
    + intros d Hd. destruct (Hbefore d Hd) as [b Hb].
      by apply run_checks_body_returns with (b := b).
    + by rewrite (bind_raise _ _ _ (f_equal outcome Hraise)).
  - intros Hh. rewrite streamlit_outcome.
    destruct (length (rdap_parts domain) <? 2)%nat; [by eauto|].
    destruct (rdap_streamlit.RDAP_SERVERS !! rdap_tld domain) as [base|]; [|by eauto].
    specialize (Hh (base +:+ domain)).
    destruct (http (base +:+ domain)) as [r|e]; simpl in Hh; [by eauto|].
    rewrite Hh. by eauto.
  - intros whois. destruct (check_domain_whois_total whois domain) as [b ->]. by eauto.
Qed.

Lemma C6_lookup_exceptions_witness :
  (∃ b, outcome (rdap_checker.check_domain_rdap
                   (λ _, Ret {| status_code := 200 |}) "google.io") = Ret b) ∧
  rdap_checker.check_domain_rdap (λ _, Ret {| status_code := 200 |}) "localhost"
  = Run [] (Raise (ValueError ("Invalid domain format: " +:+ "localhost"))).
Proof.
  split.
  - apply (proj1 (C6_lookup_exceptions (λ _, Ret {| status_code := 200 |}) "google.io")).
    + vm_compute; lia.
    + intros url. reflexivity.
  - apply (proj1 (proj2 (C6_lookup_exceptions (λ _, Ret {| status_code := 200 |})
                           "localhost"))).
    vm_compute; lia.
Defined.

(** C6 as stated fails: on the input "localhost" the lookup raises
    [ValueError], and the exception leaves the driver loop before
    "google.io" is checked. *)
Lemma C6_value_error_escapes :
  outcome (rdap_checker.check_domain_rdap
             (λ _, Ret {| status_code := 200 |}) "localhost")
  = Raise (ValueError "Invalid domain format: localhost") ∧
  rdap_checker.run_checks (λ _, Ret {| status_code := 200 |}) ["localhost"; "google.io"]
  = Run [Stdout "=== RDAP Availability Checks ==="]
        (Raise (ValueError "Invalid domain format: localhost")).
Proof. split; vm_compute; reflexivity. Qed.

(** ** [itertools.product] *)

(** Sortedness goes through a comprehension. *)
Lemma StronglySorted_bind {A B} (S : relation A) (R : relation B)
    (f : A → list B) (l : list A) :
  StronglySorted S l →
  (∀ x, x ∈ l → StronglySorted R (f x)) →
  (∀ x x' y y', x ∈ l → x' ∈ l → S x x' → y ∈ f x → y' ∈ f x' → R y y') →
  StronglySorted R (l ≫= f).
Proof.
  induction 1 as [|x l Hl IH Hx]; intros Hin Hcross; [constructor|].
  rewrite bind_cons. apply StronglySorted_app. split_and!.
  - intros y y' Hy Hy'. apply list_elem_of_bind in Hy' as (x' & Hy' & Hx').
    rewrite Forall_forall in Hx.
    apply (Hcross x x'); auto using list_elem_of_here, list_elem_of_further.
  - apply Hin, list_elem_of_here.
  - apply IH; [intros; apply Hin; by apply list_elem_of_further|].
    intros ???????. eapply Hcross; eauto using list_elem_of_further.
Qed.

Section product_facts.
Context {A : Type}.
Implicit Types (pool : list A) (result : list (list A)).

Lemma product_S pool n :
  itertools.product pool (S n)
  = itertools.product_step pool (itertools.product pool n).
Proof. reflexivity. Qed.

(** The inner comprehension is a map. *)
Lemma extend_fmap pool (x : list A) :
  (y ← pool; [x ++ [y]]) = (λ y, x ++ [y]) <$> pool.
Proof. induction pool as [|y pool IH]; [done|]. rewrite bind_cons, IH. done. Qed.

Lemma product_step_cons pool x result :
  itertools.product_step pool (x :: result)
  = ((λ y, x ++ [y]) <$> pool) ++ itertools.product_step pool result.
Proof. unfold itertools.product_step. by rewrite bind_cons, extend_fmap. Qed.

Lemma elem_of_product_step pool result (z : list A) :
  z ∈ itertools.product_step pool result
  ↔ ∃ x y, z = x ++ [y] ∧ x ∈ result ∧ y ∈ pool.
Proof.
  unfold itertools.product_step. rewrite list_elem_of_bind. split.
  - intros (x & Hz & Hx). rewrite extend_fmap, list_elem_of_fmap in Hz.
    destruct Hz as (y & -> & Hy). eauto.
  - intros (x & y & -> & Hx & Hy). exists x. split; [|done].
    rewrite extend_fmap, list_elem_of_fmap. eauto.
Qed.

Lemma length_product_step pool result :
  length (itertools.product_step pool result) = (length result * length pool)%nat.
Proof.
  induction result as [|x result IH]; [done|].
  rewrite product_step_cons, length_app, length_fmap, IH. simpl. lia.
Qed.

(** [product] yields [n ^ repeat] tuples. *)
Lemma length_product pool n :
  length (itertools.product pool n) = (length pool ^ n)%nat.
Proof.
  induction n as [|n IH]; [done|].
  rewrite product_S, length_product_step, IH. simpl. lia.
Qed.

(** Each tuple has [repeat] components. *)
Lemma product_tuple_length pool n :
  Forall (λ x, length x = n) (itertools.product pool n).
Proof.
  induction n as [|n IH]; [by repeat constructor|].
  rewrite product_S. apply Forall_forall. intros z Hz.
  apply elem_of_product_step in Hz as (x & y & -> & Hx & _).
  rewrite Forall_forall in IH. rewrite length_app, (IH x Hx). simpl. lia.
Qed.

(** No tuple comes twice when no symbol does. *)
Lemma NoDup_product pool n : NoDup pool → NoDup (itertools.product pool n).
Proof.
  intros Hpool. induction n as [|n IH]; [apply NoDup_singleton|].
  rewrite product_S. unfold itertools.product_step.
  apply NoDup_bind; [| |done].
  - intros x1 x2 z _ _. rewrite !extend_fmap, !list_elem_of_fmap.
    intros (y1 & -> & _) (y2 & Heq & _).
    by apply app_inj_tail in Heq as [-> _].
  - intros x _. rewrite extend_fmap. apply NoDup_fmap_2; [|done].
    intros y1 y2 Heq. by apply app_inj_tail in Heq as [_ ->].
Qed.

Variable R : A → A → Prop.

Lemma list_lex_snoc (x : list A) y y' : R y y' → list_lex R (x ++ [y]) (x ++ [y']).
Proof. intros H. induction x; simpl; [by apply lex_head | by apply lex_tail]. Qed.

Lemma list_lex_app (x x' u u' : list A) :
  length x = length x' → list_lex R x x' → list_lex R (x ++ u) (x' ++ u').
Proof.
  intros Hlen Hlex. induction Hlex; simpl in *.
  - done.
  - by apply lex_head.
  - apply lex_tail, IHHlex. lia.
Qed.

(** When the pool is listed in increasing order, the tuples come in
    increasing lexicographic order. *)
Lemma StronglySorted_product pool n :
  StronglySorted R pool → StronglySorted (list_lex R) (itertools.product pool n).
Proof.
  intros Hpool. induction n as [|n IH]; [repeat constructor|].
  rewrite product_S. unfold itertools.product_step.
  pose proof (product_tuple_length pool n) as Hlen. rewrite Forall_forall in Hlen.
  apply (StronglySorted_bind (list_lex R)); [done| |].
  - intros x _. rewrite extend_fmap.
    apply (StronglySorted_fmap _ R); [|done].
    intros y y'. apply list_lex_snoc.
  - intros x x' z z' Hx Hx' Hlex.
    rewrite !extend_fmap, !list_elem_of_fmap.
    intros (y & -> & _) (y' & -> & _).
    apply list_lex_app; [|done]. by rewrite (Hlen x Hx), (Hlen x' Hx').
Qed.
End product_facts.

(** ** The candidate generator *)

Lemma iter_join (comb : list ascii) : Py.iter (Py.join comb) = comb.
Proof. apply String.list_ascii_of_string_of_list_ascii. Qed.

Global Instance join_inj : Inj (=) (=) Py.join.
Proof. intros x y H. by rewrite <- (iter_join x), <- (iter_join y), H. Qed.

Lemma length_join (comb : list ascii) : String.length (Py.join comb) = length comb.
Proof. induction comb as [|c comb IH]; simpl; [done|]. by f_equal. Qed.

Lemma length_iter (s : string) : length (Py.iter s) = String.length s.
Proof. induction s as [|c s IH]; simpl; [done|]. by f_equal. Qed.

Lemma filter_all {A} (P : A → Prop) `{!∀ x, Decision (P x)} (l : list A) :
  Forall P l → filter P l = l.
Proof.
  induction 1 as [|x l Hx _ IH]; [done|]. by rewrite filter_cons_True, IH.
Qed.

Lemma filter_none {A} (P : A → Prop) `{!∀ x, Decision (P x)} (l : list A) :
  Forall (λ x, ¬ P x) l → filter P l = [].
Proof.
  induction 1 as [|x l Hx _ IH]; [done|]. by rewrite filter_cons_False.
Qed.

Section labels_facts.
Variable chars : string.

Lemma length_labels L : length (labels chars L) = (String.length chars ^ L)%nat.
Proof. unfold labels. by rewrite length_fmap, length_product, length_iter. Qed.

Lemma labels_string_length L :
  Forall (λ s, String.length s = L) (labels chars L).
Proof.
  unfold labels. apply Forall_fmap.
  eapply Forall_impl; [apply product_tuple_length|].
  intros comb H. simpl. by rewrite length_join.
Qed.

Lemma NoDup_labels L : NoDup (Py.iter chars) → NoDup (labels chars L).
Proof.
  intros H. unfold labels.
  apply (NoDup_fmap_2 Py.join). by apply NoDup_product.
Qed.

Lemma StronglySorted_labels (R : ascii → ascii → Prop) L :
  StronglySorted R (Py.iter chars) → StronglySorted (str_lex R) (labels chars L).
Proof.
  intros H. unfold labels.
  apply (StronglySorted_fmap _ (list_lex R)); [|by apply StronglySorted_product].
  intros x y Hxy. unfold str_lex. by rewrite !iter_join.
Qed.

(** Labels of another length are not of length [L]. *)
Lemma filter_labels_other L L' :
  L' ≠ L → filter (λ s, String.length s = L) (labels chars L') = [].
Proof.
  intros Hne. apply filter_none, Forall_forall. intros s Hs Hlen.
  pose proof (labels_string_length L') as HL. rewrite Forall_forall in HL.
  specialize (HL s Hs). congruence.
Qed.

Lemma filter_labels_same L :
  filter (λ s, String.length s = L) (labels chars L) = labels chars L.
Proof. apply filter_all, labels_string_length. Qed.

Lemma filter_generate_absent L (ls : list nat) :
  L ∉ ls → filter (λ s, String.length s = L) (ls ≫= labels chars) = [].
Proof.
  induction ls as [|L' ls IH]; intros Hnot; [done|].
  rewrite bind_cons, filter_app, filter_labels_other, IH; [done| |].
  - intros Hin. apply Hnot. by apply list_elem_of_further.
  - intros ->. apply Hnot, list_elem_of_here.
Qed.

Lemma filter_generate_present L (ls : list nat) :
  NoDup ls → L ∈ ls →
  filter (λ s, String.length s = L) (ls ≫= labels chars) = labels chars L.
Proof.
  induction 1 as [|L' ls Hnot Hnd IH]; intros Hin; [by apply elem_of_nil in Hin|].
  rewrite bind_cons, filter_app.
  destruct (decide (L' = L)) as [->|Hne].
  - by rewrite filter_labels_same, filter_generate_absent, app_nil_r.
  - rewrite filter_labels_other by done. simpl. apply IH.
    apply elem_of_cons in Hin as [->|Hin]; done.
Qed.

Lemma length_generate_from (ls : list nat) :
  length (ls ≫= labels chars)
  = sum_list ((λ L, String.length chars ^ L)%nat <$> ls).
Proof.
  induction ls as [|L ls IH]; [done|].
  rewrite bind_cons, length_app, length_labels, IH. done.
Qed.
End labels_facts.

Lemma length_candidates (names tlds : list string) :
  length (dns_check.candidates names tlds) = (length names * length tlds)%nat.
Proof.
  unfold dns_check.candidates. induction names as [|d names IH]; [done|].
  rewrite bind_cons, length_app, IH.
  assert (Hrow : length (t ← tlds; [d +:+ "." +:+ t]) = length tlds).
  { clear IH. induction tlds as [|t tlds IHt]; [done|].
    rewrite bind_cons. simpl. by rewrite IHt. }
  rewrite Hrow. simpl. lia.
Qed.

Lemma elem_of_candidates (names tlds : list string) (c : string) :
  c ∈ dns_check.candidates names tlds
  ↔ ∃ d t, d ∈ names ∧ t ∈ tlds ∧ c = d +:+ "." +:+ t.
Proof.
  unfold dns_check.candidates. rewrite list_elem_of_bind. split.
  - intros (d & Hc & Hd). apply list_elem_of_bind in Hc as (t & Hc & Ht).
    apply list_elem_of_singleton in Hc. eauto.
  - intros (d & t & Hd & Ht & ->). exists d. split; [|done].
    apply list_elem_of_bind. exists t. split; [|done]. apply list_elem_of_here.
Qed.

(** The module-level scan of dns_check.py resolves exactly the
    [candidates], in order, as long as the resolver answers or raises a
    [DNSException]. *)
Section dns_scan.
Variable resolve : dns_oracle.
Hypothesis resolve_handled :
  ∀ q, match resolve q "A" with
       | Ret _ => True
       | Raise e => is_DNSException e = true
       end.

Lemma is_domain_available_returns domain :
  ∃ b, dns_check.is_domain_available resolve domain = Run [DnsQuery domain "A"] (Ret b).
Proof.
  rewrite is_domain_available_spec. specialize (resolve_handled domain).
  destruct (resolve domain "A") as [ans|e]; [by eauto|].
  rewrite resolve_handled. by eauto.
Qed.

Lemma scan_row d (tlds : list string) :
  outcome (for_each tlds (λ t,
    let full_domain := d +:+ "." +:+ t in
    available ← dns_check.is_domain_available resolve full_domain;
    if available : bool then print ("Potentially available: " +:+ full_domain)
    else mret tt)) = Ret tt ∧
  queries (trace (for_each tlds (λ t,
    let full_domain := d +:+ "." +:+ t in
    available ← dns_check.is_domain_available resolve full_domain;
    if available : bool then print ("Potentially available: " +:+ full_domain)
    else mret tt)))
  = (λ c, DnsQuery c "A") <$> (t ← tlds; [d +:+ "." +:+ t]).
Proof.
  induction tlds as [|t tlds [IHo IHq]]; [done|].
  cbn [for_each]. cbv zeta.
  destruct (is_domain_available_returns (d +:+ "." +:+ t)) as [b Hb].
  rewrite Hb.
  erewrite (bind_ret (Run _ _ ≫= _)) by (by destruct b).
  simpl. split; [done|].
  unfold queries in *.
  rewrite filter_cons_True by done. rewrite filter_app, IHq.
  by destruct b.
Qed.

Lemma scan_checks_candidates (names tlds : list string) :
  outcome (dns_check.scan resolve names tlds) = Ret tt ∧
  queries (trace (dns_check.scan resolve names tlds))
  = (λ c, DnsQuery c "A") <$> dns_check.candidates names tlds.
Proof.
  unfold dns_check.scan, dns_check.candidates.
  induction names as [|d names [IHo IHq]]; [done|].
  cbn [for_each]. destruct (scan_row d tlds) as [Ho Hq].
  rewrite (bind_ret _ _ tt Ho). cbn [trace outcome]. split; [done|].
  unfold queries in *. by rewrite bind_cons, fmap_app, filter_app, Hq, IHq.
Qed.
End dns_scan.

(** C5: for an alphabet of [n] distinct symbols and every length [L] of
    the range, the labels of length [L] that the generator yields are the
    [n ^ L] results of [product], without duplicates and in lexicographic
    order whenever the alphabet itself is listed in increasing order;
    every label is paired with every TLD, and the number of candidates is
    the sum of [n ^ L] over the range times the number of TLDs. *)
Theorem C5_candidate_generator (chars : string) (lo hi : nat) (tlds : list string) :
  NoDup (Py.iter chars) →
  (∀ L, L ∈ Py.range lo hi →
     filter (λ s, String.length s = L) (dns_check.generate chars lo hi) = labels chars L ∧
     length (labels chars L) = (String.length chars ^ L)%nat ∧
     NoDup (labels chars L) ∧
     (∀ R : ascii → ascii → Prop,
        StronglySorted R (Py.iter chars) →
        StronglySorted (str_lex R) (labels chars L))) ∧
  length (dns_check.candidates (dns_check.generate chars lo hi) tlds)
  = (sum_list ((λ L, String.length chars ^ L)%nat <$> Py.range lo hi) * length tlds)%nat ∧
  (∀ c, c ∈ dns_check.candidates (dns_check.generate chars lo hi) tlds
        ↔ ∃ d t, d ∈ dns_check.generate chars lo hi ∧ t ∈ tlds ∧ c = d +:+ "." +:+ t).
Proof.
  intros Hchars. split_and!.
  - intros L HL. split_and!.
    + unfold dns_check.generate. apply filter_generate_present; [|done].
      apply NoDup_seq.
    + apply length_labels.
    + by apply NoDup_labels.
    + intros R. apply StronglySorted_labels.
  - rewrite length_candidates. unfold dns_check.generate.
    by rewrite length_generate_from.
  - apply elem_of_candidates.
Qed.

Lemma C5_candidate_generator_witness :
  length (labels dns_check.chars 2) = 676%nat ∧
  NoDup (labels dns_check.chars 2) ∧
  StronglySorted (str_lex char_lt) (labels dns_check.chars 2) ∧
  length (dns_check.candidates dns_check.domain_names dns_check.tlds) = 4212%nat.
Proof.
  assert (Hchars : NoDup (Py.iter dns_check.chars)).
  { apply (bool_decide_unpack _). vm_compute. exact I. }
  assert (Hsorted : StronglySorted char_lt (Py.iter dns_check.chars)).
  { repeat (constructor; try reflexivity). }
  destruct (C5_candidate_generator dns_check.chars 1 3 dns_check.tlds Hchars)
    as (Hper & Hcount & _).
  destruct (Hper 2%nat) as (_ & Hlen & Hnodup & Hlex).
  { apply list_elem_of_further, list_elem_of_here. }
  split_and!.
  - exact Hlen.
  - exact Hnodup.
  - exact (Hlex char_lt Hsorted).
  - exact Hcount.
Defined.


(** * Further properties of the scripts *)

(** ** What the generator yields *)

Lemma product_step_nil_pool {A} (result : list (list A)) :
  itertools.product_step [] result = [].
Proof. induction result as [|x result IH]; [done|]. by rewrite product_step_cons, IH. Qed.

Lemma elem_of_product {A} (pool : list A) (n : nat) (x : list A) :
  x ∈ itertools.product pool n ↔ length x = n ∧ Forall (λ a, a ∈ pool) x.
Proof.
  revert x. induction n as [|n IH]; intros x.
  - change (itertools.product pool 0) with [@nil A].
    rewrite list_elem_of_singleton. split.
    + intros ->. by split.
    + intros [Hlen _]. by destruct x.
  - rewrite product_S, elem_of_product_step. split.
    + intros (x' & y & -> & Hx' & Hy). apply IH in Hx' as [Hlen Hall].
      rewrite length_app, Forall_app, Hlen. simpl. split; [lia|]. by repeat constructor.
    + intros [Hlen Hall]. induction x as [|a x _] using rev_ind; [simpl in Hlen; lia|].
      rewrite length_app in Hlen. simpl in Hlen.
      apply Forall_app in Hall as [Hx Hy]. rewrite Forall_singleton in Hy.
      exists x, a. split_and!; [done| |exact Hy]. apply IH. split; [lia|done].
Qed.

Lemma elem_of_labels (chars s : string) (L : nat) :
  s ∈ labels chars L
  ↔ String.length s = L ∧ Forall (λ c, c ∈ Py.iter chars) (Py.iter s).
Proof.
  unfold labels. rewrite list_elem_of_fmap. split.
  - intros (x & -> & Hx). apply elem_of_product in Hx as [Hlen Hall].
    by rewrite length_join, iter_join.
  - intros [Hlen Hall]. exists (Py.iter s). split.
    + symmetry. apply String.string_of_list_ascii_of_string.
    + apply elem_of_product. by rewrite length_iter.
Qed.

(** The generator is complete: the labels of length [L] are exactly the
    strings of [L] characters drawn from the alphabet. *)
Theorem labels_complete (chars s : string) (L : nat) :
  s ∈ labels chars L
  ↔ String.length s = L ∧ Forall (λ c, c ∈ Py.iter chars) (Py.iter s).
Proof. apply elem_of_labels. Qed.

Lemma labels_empty_alphabet (n : nat) : labels EmptyString (S n) = [].
Proof.
  unfold labels. change (Py.iter EmptyString) with (@nil ascii).
  by rewrite product_S, product_step_nil_pool.
Qed.

(** An empty range of lengths, or an empty alphabet with positive
    lengths only, yields no label at all, and the scan over it returns
    at once without a single query or printed line. *)
Theorem generator_degenerate (chars : string) (lo hi : nat)
    (tlds : list string) (resolve : dns_oracle) :
  (hi ≤ lo)%nat ∨ (chars = EmptyString ∧ (0 < lo)%nat) →
  dns_check.generate chars lo hi = [] ∧
  dns_check.candidates (dns_check.generate chars lo hi) tlds = [] ∧
  dns_check.scan resolve (dns_check.generate chars lo hi) tlds = Run [] (Ret tt).
Proof.
  intros H.
  assert (Hgen : dns_check.generate chars lo hi = []).
  { unfold dns_check.generate, Py.range. destruct H as [H|[-> H]].
    - by replace (hi - lo)%nat with 0%nat by lia.
    - generalize (hi - lo)%nat. intros k. revert lo H.
      induction k as [|k IH]; intros lo H; [done|].
      cbn [seq]. rewrite bind_cons. destruct lo as [|lo]; [lia|].
      rewrite labels_empty_alphabet. simpl. apply IH. lia. }
  by rewrite Hgen.
Qed.

Lemma generator_degenerate_witness :
  dns_check.generate "abc" 3 3 = [] ∧
  dns_check.candidates (dns_check.generate "abc" 3 3) ["io"] = [] ∧
  dns_check.scan (λ _ _, Raise (DNSException NXDOMAIN))
    (dns_check.generate "abc" 3 3) ["io"] = Run [] (Ret tt).
Proof.
  apply (generator_degenerate "abc" 3 3 ["io"] (λ _ _, Raise (DNSException NXDOMAIN))).
  left. lia.
Defined.

(** ** No candidate twice *)

Lemma split_at_dot (d d' t t' : string) :
  "."%char ∉ Py.iter d → "."%char ∉ Py.iter d' →
  d +:+ "." +:+ t = d' +:+ "." +:+ t' → d = d' ∧ t = t'.
Proof.
  revert d'. induction d as [|c d IH]; intros d' Hd Hd' Heq.
  - destruct d' as [|c' d']; simpl in *.
    + by simplify_eq.
    + simplify_eq. exfalso. apply Hd'. apply list_elem_of_here.
  - destruct d' as [|c' d']; simpl in *.
    + simplify_eq. exfalso. apply Hd. apply list_elem_of_here.
    + simplify_eq. destruct (IH d') as [-> ->]; [| |done|done].
      * intros Hin. apply Hd. by apply list_elem_of_further.
      * intros Hin. apply Hd'. by apply list_elem_of_further.
Qed.

Lemma generate_elem (chars : string) (lo hi : nat) (d : string) :
  d ∈ dns_check.generate chars lo hi
  ↔ ∃ L, L ∈ Py.range lo hi ∧ d ∈ labels chars L.
Proof.
  unfold dns_check.generate. rewrite list_elem_of_bind. split.
  - intros (L & Hd & HL). eauto.
  - intros (L & HL & Hd). eauto.
Qed.

Lemma NoDup_generate (chars : string) (lo hi : nat) :
  NoDup (Py.iter chars) → NoDup (dns_check.generate chars lo hi).
Proof.
  intros Hchars. unfold dns_check.generate. apply NoDup_bind.
  - intros L1 L2 d _ _ H1 H2.
    apply elem_of_labels in H1 as [H1 _]. apply elem_of_labels in H2 as [H2 _].
    congruence.
  - intros L _. by apply NoDup_labels.
  - apply NoDup_seq.
Qed.

Lemma NoDup_candidates (chars : string) (lo hi : nat) (tlds : list string) :
  NoDup (Py.iter chars) →
  "."%char ∉ Py.iter chars →
  NoDup tlds →
  NoDup (dns_check.candidates (dns_check.generate chars lo hi) tlds).
Proof.
  intros Hchars Hdot Htlds.
  assert (Hfree : ∀ d, d ∈ dns_check.generate chars lo hi → "."%char ∉ Py.iter d).
  { intros d Hd Hin. apply generate_elem in Hd as (L & _ & Hd).
    apply elem_of_labels in Hd as [_ Hall]. rewrite Forall_forall in Hall.
    by apply Hdot, Hall. }
  unfold dns_check.candidates. apply NoDup_bind.
  - intros d1 d2 c Hd1 Hd2 Hc1 Hc2.
    apply list_elem_of_bind in Hc1 as (t1 & Hc1 & _).
    apply list_elem_of_bind in Hc2 as (t2 & Hc2 & _).
    apply list_elem_of_singleton in Hc1, Hc2. subst c.
    by apply split_at_dot in Hc2 as [-> _]; auto.
  - intros d Hd. apply NoDup_bind; [| |done].
    + intros t1 t2 c _ _ Hc1 Hc2.
      apply list_elem_of_singleton in Hc1, Hc2. subst c.
      by apply split_at_dot in Hc2 as [_ ->]; auto.
    + intros t _. apply NoDup_singleton.
  - by apply NoDup_generate.
Qed.

(** With an alphabet of distinct symbols that does not hold the dot, and
    distinct TLDs, the scan never meets the same candidate twice. *)
Theorem candidates_distinct (chars : string) (lo hi : nat) (tlds : list string) :
  NoDup (Py.iter chars) →
  "."%char ∉ Py.iter chars →
  NoDup tlds →
  NoDup (dns_check.candidates (dns_check.generate chars lo hi) tlds).
Proof. apply NoDup_candidates. Qed.

Lemma candidates_distinct_witness :
  NoDup (dns_check.candidates dns_check.domain_names dns_check.tlds).
Proof.
  apply (candidates_distinct dns_check.chars 1 3 dns_check.tlds).
  - apply (bool_decide_unpack _). vm_compute. exact I.
  - apply (bool_decide_unpack _). vm_compute. exact I.
  - apply (bool_decide_unpack _). vm_compute. exact I.
Defined.

(** ** The DNS scan *)

Section dns_report.
Variable resolve : dns_oracle.
Hypothesis resolve_handled :
  ∀ q, match resolve q "A" with
       | Ret _ => True
       | Raise e => is_DNSException e = true
       end.

Let step (c : string) : list event :=
  DnsQuery c "A" ::
  (if raised (resolve c "A") then [Stdout ("Potentially available: " +:+ c)] else []).

Lemma is_domain_available_raised domain :
  dns_check.is_domain_available resolve domain
  = Run [DnsQuery domain "A"] (Ret (raised (resolve domain "A"))).
Proof.
  rewrite is_domain_available_spec. specialize (resolve_handled domain).
  destruct (resolve domain "A") as [ans|e]; [done|]. by rewrite resolve_handled.
Qed.

Lemma scan_row_trace d (tlds : list string) :
  for_each tlds (λ t,
    available ← dns_check.is_domain_available resolve (d +:+ "." +:+ t);
    if available : bool then print ("Potentially available: " +:+ d +:+ "." +:+ t)
    else mret tt)
  = Run ((t ← tlds; [d +:+ "." +:+ t]) ≫= step) (Ret tt).
Proof.
  induction tlds as [|t tlds IH]; [done|].
  cbn [for_each]. rewrite is_domain_available_raised, IH.
  rewrite bind_cons, bind_app, bind_singleton. unfold step.
  by destruct (raised (resolve (d +:+ "." +:+ t) "A")).
Qed.

Lemma scan_trace (names tlds : list string) :
  dns_check.scan resolve names tlds
  = Run (dns_check.candidates names tlds ≫= step) (Ret tt).
Proof.
  unfold dns_check.scan, dns_check.candidates. cbv zeta.
  induction names as [|d names IH]; [done|].
  cbn [for_each]. rewrite scan_row_trace, IH.
  by rewrite !bind_cons, bind_app.
Qed.

Lemma step_queries (cs : list string) :
  queries (cs ≫= step) = (λ c, DnsQuery c "A") <$> cs.
Proof.
  unfold queries. induction cs as [|c cs IH]; [done|].
  rewrite bind_cons, filter_app, IH, fmap_cons. unfold step.
  by destruct (raised (resolve c "A")).
Qed.

Lemma step_stdout (cs : list string) :
  stdout_lines (cs ≫= step)
  = (λ c, "Potentially available: " +:+ c)
      <$> filter (λ c, raised (resolve c "A") = true) cs.
Proof.
  unfold stdout_lines. induction cs as [|c cs IH]; [done|].
  rewrite bind_cons, bind_app, IH. unfold step.
  destruct (raised (resolve c "A")) eqn:E.
  - rewrite filter_cons_True by done. done.
  - rewrite filter_cons_False by (rewrite E; done). done.
Qed.
End dns_report.

(** As long as every resolution answers or raises a [DNSException], the
    module-level scan of dns_check.py returns normally, resolves the "A"
    record of every candidate once, in generation order, and prints
    "Potentially available" for exactly the candidates whose resolution
    raised, in that order. *)
Theorem dns_scan_report (resolve : dns_oracle) (names tlds : list string) :
  (∀ q, match resolve q "A" with
        | Ret _ => True
        | Raise e => is_DNSException e = true
        end) →
  outcome (dns_check.scan resolve names tlds) = Ret tt ∧
  queries (trace (dns_check.scan resolve names tlds))
  = (λ c, DnsQuery c "A") <$> dns_check.candidates names tlds ∧
  stdout_lines (trace (dns_check.scan resolve names tlds))
  = (λ c, "Potentially available: " +:+ c)
      <$> filter (λ c, raised (resolve c "A") = true) (dns_check.candidates names tlds).
Proof.
  intros H. rewrite (scan_trace resolve H). cbn [trace outcome].
  split_and!; [done| apply step_queries | apply step_stdout].
Qed.

Lemma dns_scan_report_witness :
  stdout_lines (trace (dns_check.scan
    (λ q _, if decide (q = "a.io") then Ret ["93.184.216.34"]
            else Raise (DNSException NXDOMAIN))
    ["a"; "b"] ["io"; "de"]))
  = ["Potentially available: a.de"; "Potentially available: b.io";
     "Potentially available: b.de"].
Proof.
  pose proof (dns_scan_report
    (λ q _, if decide (q = "a.io") then Ret ["93.184.216.34"]
            else Raise (DNSException NXDOMAIN))
    ["a"; "b"] ["io"; "de"]) as H.
  destruct H as (_ & _ & H).
  - intros q. by destruct (decide (q = "a.io")).
  - rewrite H. vm_compute. reflexivity.
Defined.

(** An exception of [dns.resolver.resolve] that is not a [DNSException]
    is not caught: [is_domain_available] raises it again after its one
    query. *)
Theorem dns_other_exception_escapes (resolve : dns_oracle) (domain : string) (e : exn) :
  resolve domain "A" = Raise e →
  is_DNSException e = false →
  dns_check.is_domain_available resolve domain = Run [DnsQuery domain "A"] (Raise e).
Proof. intros H He. rewrite is_domain_available_spec, H. by rewrite He. Qed.

Lemma dns_other_exception_escapes_witness :
  dns_check.is_domain_available (λ _ _, Raise (OtherError "label too long")) "aa.io"
  = Run [DnsQuery "aa.io" "A"] (Raise (OtherError "label too long")).
Proof.
  apply (dns_other_exception_escapes
           (λ _ _, Raise (OtherError "label too long")) "aa.io"
           (OtherError "label too long")); reflexivity.
Defined.

(** ** The WHOIS heuristic and its scan *)

(** For a WHOIS answer that arrived, [check_domain_whois] returns [True]
    exactly when the lower-cased text holds one of the three markers as a
    substring or the parsed [domain_name] is falsy ([None], empty string
    or empty list); in every other case it returns [False]. *)
Theorem whois_classification (whois : whois_oracle) (domain : string) (w : WhoisEntry) :
  whois domain = Ret w →
  (outcome (domain_finder.check_domain_whois whois domain) = Ret true
   ↔ (∃ marker pre post,
        marker ∈ ["no match"; "not found"; "no data found"] ∧
        Py.lower (Py.or_empty (text w)) = pre +:+ marker +:+ post)
     ∨ truthy (domain_name w) = false) ∧
  (outcome (domain_finder.check_domain_whois whois domain) = Ret true
   ∨ outcome (domain_finder.check_domain_whois whois domain) = Ret false).
Proof.
  intros Hw.
  unfold domain_finder.check_domain_whois, try_except, call_whois, mbind, M_bind.
  simpl. rewrite Hw. simpl.
  set (raw_text := Py.lower (Py.or_empty (text w))).
  destruct (Py.contains "no match" raw_text) eqn:E1; simpl.
  { split; [|by left]. split; [|done]. intros _. left.
    apply contains_spec in E1 as (pre & post & E1).
    exists "no match", pre, post. split; [apply list_elem_of_here|done]. }
  destruct (Py.contains "not found" raw_text) eqn:E2; simpl.
  { split; [|by left]. split; [|done]. intros _. left.
    apply contains_spec in E2 as (pre & post & E2).
    exists "not found", pre, post.
    split; [apply list_elem_of_further, list_elem_of_here|done]. }
  destruct (Py.contains "no data found" raw_text) eqn:E3; simpl.
  { split; [|by left]. split; [|done]. intros _. left.
    apply contains_spec in E3 as (pre & post & E3).
    exists "no data found", pre, post.
    split; [do 2 apply list_elem_of_further; apply list_elem_of_here|done]. }
  assert (Hnone : ¬ ∃ marker pre post,
            marker ∈ ["no match"; "not found"; "no data found"] ∧
            raw_text = pre +:+ marker +:+ post).
  { intros (marker & pre & post & Hm & Heq).
    assert (Hc : Py.contains marker raw_text = true) by (apply contains_spec; eauto).
    rewrite !elem_of_cons in Hm. destruct Hm as [->|[->|[->|Hm]]]; try congruence.
    by apply elem_of_nil in Hm. }
  destruct (truthy (domain_name w)); simpl.
  - split; [|by right]. split; [done|]. intros [H|H]; [by destruct Hnone|done].
  - split; [|by left]. split; [|done]. intros _. by right.
Qed.

Lemma whois_classification_witness :
  outcome (domain_finder.check_domain_whois
             (λ _, Ret {| text := None; domain_name := DnList [] |}) "aa.io") = Ret true.
Proof.
  apply (whois_classification
           (λ _, Ret {| text := None; domain_name := DnList [] |}) "aa.io"
           {| text := None; domain_name := DnList [] |} eq_refl).
  right. reflexivity.
Defined.

Lemma Forall2_domains whois tld (names : list string) (rows : list domain_finder.row) :
  Forall2 (λ name r,
             domain_finder.Domain r = name +:+ "." +:+ tld ∧
             outcome (domain_finder.check_domain_whois whois (name +:+ "." +:+ tld))
             = Ret (domain_finder.Available r)) names rows →
  domain_finder.Domain <$> rows = (λ name, name +:+ "." +:+ tld) <$> names.
Proof.
  induction 1 as [|name r names rows [Hd _] _ IH]; [done|].
  rewrite !fmap_cons. by rewrite Hd, IH.
Qed.

(** A WHOIS scan for labels of [domain_length] letters always completes:
    it sends 26 ^ domain_length queries and returns as many rows, whose
    domains are the generated labels followed by the TLD, in generation
    order. *)
Theorem whois_scan_size (whois : whois_oracle) (tld : string) (domain_length : nat) :
  ∃ results,
    outcome (domain_finder.main whois tld domain_length) = Ret results ∧
    length results = (26 ^ domain_length)%nat ∧
    length (trace (domain_finder.main whois tld domain_length))
    = (26 ^ domain_length)%nat ∧
    domain_finder.Domain <$> results
    = (λ name, name +:+ "." +:+ tld) <$> labels domain_finder.chars domain_length.
Proof.
  unfold domain_finder.main, domain_finder.check_all, domain_finder.possible_domains.
  destruct (check_all_from whois tld (labels domain_finder.chars domain_length) [])
    as (rows & Hrun & Hrows).
  exists rows. rewrite Hrun. cbn [trace outcome].
  pose proof (length_labels domain_finder.chars domain_length) as Hlen.
  change (String.length domain_finder.chars) with 26%nat in Hlen.
  split_and!.
  - done.
  - by rewrite <- (Forall2_length _ _ _ Hrows).
  - by rewrite !length_fmap.
  - by apply (Forall2_domains whois).
Qed.

Lemma filter_unavailable (rows : list domain_finder.row) :
  Forall (λ r, domain_finder.Available r = false) rows →
  domain_finder.df_available rows = [].
Proof.
  intros H. unfold domain_finder.df_available.
  rewrite (filter_none (λ r, domain_finder.Available r = true)); [done|].
  eapply Forall_impl; [exact H|]. intros r Hr. simpl. rewrite Hr. done.
Qed.

(** When the WHOIS service fails for every query, the scan still asks
    for every candidate and returns a row for each, and the table of
    available domains is empty. *)
Theorem whois_outage_shows_nothing (whois : whois_oracle) (tld : string)
    (names : list string) :
  (∀ d, raised (whois d) = true) →
  ∃ results,
    domain_finder.check_all whois tld names
    = Run (WhoisQuery <$> ((λ name, name +:+ "." +:+ tld) <$> names)) (Ret results) ∧
    length results = length names ∧
    domain_finder.df_available results = [].
Proof.
  intros Hdown.
  destruct (check_all_from whois tld names []) as (rows & Hrun & Hrows).
  exists rows. unfold domain_finder.check_all. rewrite Hrun.
  split_and!; [done| by rewrite <- (Forall2_length _ _ _ Hrows) |].
  apply filter_unavailable.
  clear Hrun. induction Hrows as [|name r names rows [_ Ho] _ IH]; constructor; [|done].
  specialize (Hdown (name +:+ "." +:+ tld)).
  destruct (whois (name +:+ "." +:+ tld)) as [w|e] eqn:E; [done|].
  rewrite (check_domain_whois_raise _ _ _ E) in Ho. simpl in Ho. congruence.
Qed.

Lemma whois_outage_shows_nothing_witness :
  ∃ results,
    domain_finder.check_all (λ _, Raise (OtherError "connection reset")) "io" ["aa"; "ab"]
    = Run [WhoisQuery "aa.io"; WhoisQuery "ab.io"] (Ret results) ∧
    length results = 2%nat ∧
    domain_finder.df_available results = [].
Proof.
  apply (whois_outage_shows_nothing (λ _, Raise (OtherError "connection reset")) "io"
           ["aa"; "ab"]).
  intros d. reflexivity.
Defined.

(** ** Splitting a domain at its dots *)

Lemma split_nonempty (sep : ascii) (s : string) : Py.split sep s ≠ [].
Proof.
  induction s as [|c s IH]; simpl; [done|].
  destruct (decide (c = sep)); [done|]. by destruct (Py.split sep s).
Qed.

Lemma split_without_sep (sep : ascii) (s : string) :
  sep ∉ Py.iter s → Py.split sep s = [s].
Proof.
  induction s as [|c s IH]; simpl; intros H; [done|].
  destruct (decide (c = sep)) as [->|Hne].
  - exfalso. apply H, list_elem_of_here.
  - rewrite IH; [done|]. intros Hin. apply H. by apply list_elem_of_further.
Qed.

Lemma split_with_sep (sep : ascii) (s : string) :
  sep ∈ Py.iter s → (2 ≤ length (Py.split sep s))%nat.
Proof.
  induction s as [|c s IH]; simpl; intros H; [by apply elem_of_nil in H|].
  destruct (decide (c = sep)) as [->|Hne].
  - pose proof (split_nonempty sep s). destruct (Py.split sep s); [done|simpl; lia].
  - apply elem_of_cons in H as [->|H]; [done|]. specialize (IH H).
    destruct (Py.split sep s); simpl in *; lia.
Qed.

Lemma split_app_sep (sep : ascii) (a b : string) :
  sep ∉ Py.iter a →
  Py.split sep (a +:+ String sep b) = a :: Py.split sep b.
Proof.
  induction a as [|c a IH]; simpl; intros H.
  - by rewrite decide_True.
  - destruct (decide (c = sep)) as [->|Hne].
    + exfalso. apply H, list_elem_of_here.
    + rewrite IH; [done|]. intros Hin. apply H. by apply list_elem_of_further.
Qed.

(** ** The RDAP lookups, call by call *)

(** Both RDAP functions reject an input exactly when what is left after
    [strip] holds no dot (the empty and the all-blank input included):
    [rdap_checker] raises [ValueError] and [rdap_streamlit] returns
    [False], neither issuing a request.  An input with a dot is never
    rejected this way: under a transport that answers or raises
    [RequestException], both return a boolean. *)
Theorem rdap_rejects_dotless (http : http_oracle) (domain : string) :
  ("."%char ∉ Py.iter (Py.strip domain) →
     rdap_checker.check_domain_rdap http domain
     = Run [] (Raise (ValueError ("Invalid domain format: " +:+ domain))) ∧
     rdap_streamlit.check_domain_rdap http domain = Run [] (Ret false)) ∧
  ("."%char ∈ Py.iter (Py.strip domain) →
     (∀ url, handled_by_rdap (http url) = true) →
     ∃ b, outcome (rdap_checker.check_domain_rdap http domain) = Ret b ∧
          outcome (rdap_streamlit.check_domain_rdap http domain) = Ret b).
Proof.
  split.
  - intros Hdot.
    assert (Hone : (length (rdap_parts domain) <? 2)%nat = true).
    { unfold rdap_parts. by rewrite (split_without_sep _ _ Hdot). }
    split.
    + apply checker_raises. by apply Nat.ltb_lt.
    + unfold rdap_streamlit.check_domain_rdap. fold (rdap_parts domain). by rewrite Hone.
  - intros Hdot Hh.
    pose proof (split_with_sep _ _ Hdot) as Htwo. fold (rdap_parts domain) in Htwo.
    rewrite checker_outcome, streamlit_outcome, <- RDAP_SERVERS_same, (two_parts _ Htwo).
    destruct (rdap_checker.RDAP_SERVERS !! rdap_tld domain) as [base|]; [|by eauto].
    specialize (Hh (base +:+ domain)).
    destruct (http (base +:+ domain)) as [r|e]; simpl in Hh; [by eauto|].
    rewrite Hh. by eauto.
Qed.

Lemma rdap_rejects_dotless_witness :
  (rdap_checker.check_domain_rdap (λ _, Ret {| status_code := 404 |}) "   "
   = Run [] (Raise (ValueError ("Invalid domain format: " +:+ "   "))) ∧
   rdap_streamlit.check_domain_rdap (λ _, Ret {| status_code := 404 |}) "   "
   = Run [] (Ret false)) ∧
  (∃ b, outcome (rdap_checker.check_domain_rdap
                   (λ _, Ret {| status_code := 404 |}) "a.b.dev") = Ret b ∧
        outcome (rdap_streamlit.check_domain_rdap
                   (λ _, Ret {| status_code := 404 |}) "a.b.dev") = Ret b).
Proof.
  split.
  - apply (proj1 (rdap_rejects_dotless (λ _, Ret {| status_code := 404 |}) "   ")).
    vm_compute. apply not_elem_of_nil.
  - apply (proj2 (rdap_rejects_dotless (λ _, Ret {| status_code := 404 |}) "a.b.dev")).
    + vm_compute. apply list_elem_of_further, list_elem_of_here.
    + intros url. reflexivity.
Defined.

(** A call of either RDAP function issues at most one request, and when
    it does, it is a GET with a timeout of 10 to the base URL configured
    for the TLD (the lower-cased last part of the stripped input)
    followed by the input as it was passed, not stripped. *)
Theorem rdap_request_shape (http : http_oracle) (domain : string) :
  (length (queries (trace (rdap_checker.check_domain_rdap http domain))) ≤ 1)%nat ∧
  (∀ ev, ev ∈ queries (trace (rdap_checker.check_domain_rdap http domain)) →
     ∃ base_url, rdap_checker.RDAP_SERVERS !! rdap_tld domain = Some base_url ∧
                 ev = HttpGet (base_url +:+ domain) 10) ∧
  queries (trace (rdap_streamlit.check_domain_rdap http domain))
  = queries (trace (rdap_checker.check_domain_rdap http domain)).
Proof.
  rewrite checker_queries, streamlit_trace, <- RDAP_SERVERS_same.
  destruct (length (rdap_parts domain) <? 2)%nat.
  { split_and!; [simpl; lia | by intros ev ?%elem_of_nil | done]. }
  destruct (rdap_checker.RDAP_SERVERS !! rdap_tld domain) as [base|].
  - split_and!; [simpl; lia | | done].
    intros ev Hev%list_elem_of_singleton. by eauto.
  - split_and!; [simpl; lia | by intros ev ?%elem_of_nil | done].
Qed.

Lemma rdap_request_shape_witness :
  ∃ base_url,
    rdap_checker.RDAP_SERVERS !! rdap_tld " AA.IO " = Some base_url ∧
    HttpGet ("https://rdap.nic.io/domain/" +:+ " AA.IO ") 10
    = HttpGet (base_url +:+ " AA.IO ") 10.
Proof.
  apply (proj1 (proj2 (rdap_request_shape (λ _, Ret {| status_code := 200 |}) " AA.IO "))).
  vm_compute. apply list_elem_of_here.
Defined.

(** An exception of [requests.get] that is not a [RequestException] is
    not caught by either RDAP function: it leaves the call unchanged,
    after the one request. *)
Theorem rdap_other_exception_escapes (http : http_oracle)
    (domain base_url : string) (e : exn) :
  (2 ≤ length (rdap_parts domain))%nat →
  rdap_checker.RDAP_SERVERS !! rdap_tld domain = Some base_url →
  http (base_url +:+ domain) = Raise e →
  is_RequestException e = false →
  rdap_checker.check_domain_rdap http domain
  = Run [HttpGet (base_url +:+ domain) 10] (Raise e) ∧
  rdap_streamlit.check_domain_rdap http domain
  = Run [HttpGet (base_url +:+ domain) 10] (Raise e).
Proof.
  intros Hparts Hsrv Hhttp He. split.
  - unfold rdap_checker.check_domain_rdap. fold (rdap_parts domain).
    rewrite (two_parts _ Hparts). fold (rdap_tld domain). rewrite Hsrv.
    unfold try_except, call_get, mbind, M_bind; simpl. rewrite Hhttp. simpl.
    by rewrite He.
  - unfold rdap_streamlit.check_domain_rdap. fold (rdap_parts domain).
    rewrite (two_parts _ Hparts). fold (rdap_tld domain).
    rewrite <- RDAP_SERVERS_same, Hsrv.
    unfold try_except, call_get, mbind, M_bind; simpl. rewrite Hhttp. simpl.
    by rewrite He.
Qed.

Lemma rdap_other_exception_escapes_witness :
  rdap_checker.check_domain_rdap (λ _, Raise (OtherError "bad url")) "aa.io"
  = Run [HttpGet ("https://rdap.nic.io/domain/" +:+ "aa.io") 10]
        (Raise (OtherError "bad url")) ∧
  rdap_streamlit.check_domain_rdap (λ _, Raise (OtherError "bad url")) "aa.io"
  = Run [HttpGet ("https://rdap.nic.io/domain/" +:+ "aa.io") 10]
        (Raise (OtherError "bad url")).
Proof.
  apply (rdap_other_exception_escapes (λ _, Raise (OtherError "bad url")) "aa.io"
           "https://rdap.nic.io/domain/" (OtherError "bad url")).
  - vm_compute; lia.
  - vm_compute; reflexivity.
  - reflexivity.
  - reflexivity.
Defined.

(** ** Letter case and surrounding blanks *)













Lemma lstrip_fixed (s : string) :
  match s with
  | EmptyString => True
  | String c _ => Py.isspace c = false
  end → Py.lstrip s = s.
Proof. destruct s as [|c s]; simpl; [done|]. by intros ->. Qed.




(** ** The RDAP scan over a configured TLD *)

Lemma rstrip_app_fixed (a b : string) :
  Py.rstrip b = b → b ≠ EmptyString → Py.rstrip (a +:+ b) = a +:+ b.
Proof.
  intros Hb Hne. induction a as [|c a IH]; [done|].
  change (String c a +:+ b) with (String c (a +:+ b)).
  cbn [Py.rstrip]. rewrite IH.
  destruct (a +:+ b) as [|x y] eqn:E; [|done].
  destruct a as [|x a]; [|discriminate E].
  change (EmptyString +:+ b) with b in E. by destruct Hne.
Qed.

(** A label without blanks and dots, a dot and a TLD without dots and
    trailing blanks split into exactly these two parts. *)
Lemma rdap_parts_candidate (label tld : string) :
  Forall (λ c, Py.isspace c = false ∧ c ≠ "."%char) (Py.iter label) →
  "."%char ∉ Py.iter tld →
  Py.rstrip tld = tld →
  rdap_parts (label +:+ "." +:+ tld) = [label; tld].
Proof.
  intros Hlabel Htld Hr. unfold rdap_parts, Py.strip.
  change ("." +:+ tld) with (String "." tld).
  rewrite lstrip_fixed.
  - rewrite rstrip_app_fixed; [| |done].
    + rewrite split_app_sep, (split_without_sep _ _ Htld); [done|].
      intros Hin. rewrite Forall_forall in Hlabel. by destruct (Hlabel _ Hin).
    + cbn [Py.rstrip]. rewrite Hr. by destruct tld.
  - destruct label as [|c label]; [done|]. simpl in *.
    by apply Forall_cons in Hlabel as [[Hc _] _].
Qed.

Lemma letters_plain :
  Forall (λ c, Py.isspace c = false ∧ c ≠ "."%char) (Py.iter rdap_streamlit.letters).
Proof. repeat (constructor; [by split|]). constructor. Qed.

Lemma configured_tld_plain (tld base_url : string) :
  rdap_streamlit.RDAP_SERVERS !! tld = Some base_url →
  ("."%char ∉ Py.iter tld) ∧ Py.rstrip tld = tld ∧ Py.lower tld = tld.
Proof.
  intros H. apply elem_of_list_to_map_2 in H.
  rewrite !elem_of_cons in H.
  destruct H as [H|[H|[H|[H|[H|H]]]]]; try (by apply elem_of_nil in H);
    injection H as -> _; (split_and!; [|reflexivity|reflexivity]);
    apply (bool_decide_unpack _); vm_compute; exact I.
Qed.

Lemma streamlit_candidate (chosen_tld base_url : string) (n : nat) (dom : string) :
  rdap_streamlit.RDAP_SERVERS !! chosen_tld = Some base_url →
  dom ∈ rdap_streamlit.possible_domains chosen_tld n →
  length (rdap_parts dom) = 2%nat ∧ rdap_tld dom = chosen_tld.
Proof.
  intros Hsrv Hdom. destruct (configured_tld_plain _ _ Hsrv) as (Hdot & Hr & Hl).
  unfold rdap_streamlit.possible_domains in Hdom.
  apply list_elem_of_fmap in Hdom as (comb & -> & Hcomb).
  apply elem_of_product in Hcomb as [_ Hall].
  assert (Hparts : rdap_parts (Py.join comb +:+ "." +:+ chosen_tld)
                   = [Py.join comb; chosen_tld]).
  { apply rdap_parts_candidate; [|done..]. rewrite iter_join.
    pose proof letters_plain as Hplain. rewrite Forall_forall in Hplain, Hall.
    apply Forall_forall. intros c Hc. by apply Hplain, Hall. }
  unfold rdap_tld. rewrite Hparts. by split.
Qed.

Lemma streamlit_check_configured (http : http_oracle) (dom base_url : string) :
  (2 ≤ length (rdap_parts dom))%nat →
  rdap_streamlit.RDAP_SERVERS !! rdap_tld dom = Some base_url →
  handled_by_rdap (http (base_url +:+ dom)) = true →
  rdap_streamlit.check_domain_rdap http dom
  = Run [HttpGet (base_url +:+ dom) 10] (Ret (answers_404 http (base_url +:+ dom))).
Proof.
  intros Hparts Hsrv Hh. apply M_eq; cbn [trace outcome].
  - by rewrite streamlit_trace, (two_parts _ Hparts), Hsrv.
  - rewrite streamlit_outcome, (two_parts _ Hparts), Hsrv. unfold answers_404.
    destruct (http (base_url +:+ dom)) as [r|e]; [done|]. simpl in Hh. by rewrite Hh.
Qed.

Lemma check_all_filter (http : http_oracle) (ev : string → event) (p : string → bool)
    (doms acc : list string) :
  (∀ dom, dom ∈ doms →
     rdap_streamlit.check_domain_rdap http dom = Run [ev dom] (Ret (p dom))) →
  for_fold doms acc (λ results_available dom,
    is_avail ← rdap_streamlit.check_domain_rdap http dom;
    if is_avail : bool then mret (results_available ++ [dom])
    else mret results_available)
  = Run (ev <$> doms) (Ret (acc ++ filter (λ dom, p dom = true) doms)).
Proof.
  revert acc. induction doms as [|dom doms IH]; intros acc H.
  - simpl. by rewrite app_nil_r.
  - cbn [for_fold]. rewrite (H dom) by apply list_elem_of_here.
    destruct (p dom) eqn:E.
    + erewrite (bind_ret (Run _ _ ≫= _)) by reflexivity.
      rewrite IH by (intros; apply H; by apply list_elem_of_further).
      rewrite filter_cons_True by done. simpl. by rewrite <- app_assoc.
    + erewrite (bind_ret (Run _ _ ≫= _)) by reflexivity.
      rewrite IH by (intros; apply H; by apply list_elem_of_further).
      rewrite filter_cons_False by (rewrite E; done). done.
Qed.

(** For a TLD of the selection box and a transport that answers or raises
    [RequestException], the RDAP scan of all labels of [domain_length]
    letters completes; it sends one GET per candidate, in generation
    order, to the TLD's base URL followed by the candidate, and reports
    exactly the candidates answered with status 404, in that order.
    There are 26 ^ domain_length candidates. *)
Theorem rdap_scan_configured (http : http_oracle) (chosen_tld base_url : string)
    (domain_length : nat) :
  rdap_streamlit.RDAP_SERVERS !! chosen_tld = Some base_url →
  (∀ url, handled_by_rdap (http url) = true) →
  rdap_streamlit.main http chosen_tld domain_length
  = Run ((λ dom, HttpGet (base_url +:+ dom) 10)
           <$> rdap_streamlit.possible_domains chosen_tld domain_length)
        (Ret (filter (λ dom, answers_404 http (base_url +:+ dom) = true)
                (rdap_streamlit.possible_domains chosen_tld domain_length))) ∧
  length (rdap_streamlit.possible_domains chosen_tld domain_length)
  = (26 ^ domain_length)%nat.
Proof.
  intros Hsrv Hh. split.
  - unfold rdap_streamlit.main, rdap_streamlit.check_all.
    rewrite (check_all_filter http (λ dom, HttpGet (base_url +:+ dom) 10)
               (λ dom, answers_404 http (base_url +:+ dom))); [done|].
    intros dom Hdom.
    destruct (streamlit_candidate _ _ _ _ Hsrv Hdom) as [Hlen Htld].
    apply streamlit_check_configured; [lia | by rewrite Htld | apply Hh].
  - unfold rdap_streamlit.possible_domains.
    by rewrite length_fmap, length_product.
Qed.

Lemma rdap_scan_configured_witness :
  rdap_streamlit.main
    (λ url, if decide (url = "https://rdap.nic.dev/domain/q.dev")
            then Ret {| status_code := 404 |}
            else Raise (RequestException ReadTimeout "timed out"))
    "dev" 1
  = Run ((λ dom, HttpGet ("https://rdap.nic.dev/domain/" +:+ dom) 10)
           <$> rdap_streamlit.possible_domains "dev" 1)
        (Ret ["q.dev"]).
Proof.
  pose proof (rdap_scan_configured
    (λ url, if decide (url = "https://rdap.nic.dev/domain/q.dev")
            then Ret {| status_code := 404 |}
            else Raise (RequestException ReadTimeout "timed out"))
    "dev" "https://rdap.nic.dev/domain/" 1) as H.
  destruct H as [H _].
  - vm_compute. reflexivity.
  - intros url. by destruct (decide (url = "https://rdap.nic.dev/domain/q.dev")).
  - rewrite H. f_equal.
Defined.

(** ** The output of rdap_checker.py *)

Lemma run_checks_trace (http : http_oracle) (ds : list string) (bs : list bool) :
  Forall2 (λ d b, outcome (rdap_checker.check_domain_rdap http d) = Ret b) ds bs →
  rdap_checker.run_checks http ds
  = Run (Stdout "=== RDAP Availability Checks ===" ::
         concat (zip_with
                   (λ d b, trace (rdap_checker.check_domain_rdap http d)
                           ++ [Stdout (d +:+ " → " +:+ status_str b)])
                   ds bs))
        (Ret tt).
Proof.
  intros H. unfold rdap_checker.run_checks.
  rewrite (bind_ret (print _) _ tt) by reflexivity. cbn [trace outcome print].
  assert (Hloop :
    for_each ds (λ d,
      is_avail ← rdap_checker.check_domain_rdap http d;
      print (d +:+ " → " +:+ (if is_avail : bool then "AVAILABLE" else "TAKEN")))
    = Run (concat (zip_with
                     (λ d b, trace (rdap_checker.check_domain_rdap http d)
                             ++ [Stdout (d +:+ " → " +:+ status_str b)])
                     ds bs))
          (Ret tt)).
  { induction H as [|d b ds bs Hd _ IH]; [done|].
    cbn [for_each]. rewrite IH.
    rewrite (bind_ret (rdap_checker.check_domain_rdap http d) _ b Hd).
    erewrite (bind_ret (Run _ _)) by reflexivity.
    cbn [trace outcome print zip_with concat]. reflexivity. }
  by rewrite Hloop.
Qed.

(** When every lookup of the list returns, the driver of rdap_checker.py
    completes; after the header line it runs the lookups in list order
    and prints, right after each one, the domain with AVAILABLE or TAKEN
    according to the boolean that lookup returned. *)
Theorem run_checks_output (http : http_oracle) (ds : list string) (bs : list bool) :
  Forall2 (λ d b, outcome (rdap_checker.check_domain_rdap http d) = Ret b) ds bs →
  rdap_checker.run_checks http ds
  = Run (Stdout "=== RDAP Availability Checks ===" ::
         concat (zip_with
                   (λ d b, trace (rdap_checker.check_domain_rdap http d)
                           ++ [Stdout (d +:+ " → " +:+ status_str b)])
                   ds bs))
        (Ret tt).
Proof. apply run_checks_trace. Qed.

Lemma run_checks_output_witness :
  rdap_checker.run_checks
    (λ url, if decide (url = "https://rdap.nic.io/domain/aa.io")
            then Ret {| status_code := 404 |} else Ret {| status_code := 200 |})
    ["aa.io"; "bb.dev"]
  = Run [Stdout "=== RDAP Availability Checks ===";
         HttpGet "https://rdap.nic.io/domain/aa.io" 10;
         Stdout "aa.io → AVAILABLE";
         HttpGet "https://rdap.nic.dev/domain/bb.dev" 10;
         Stdout "bb.dev → TAKEN"]
        (Ret tt).
Proof.
  rewrite (run_checks_output
    (λ url, if decide (url = "https://rdap.nic.io/domain/aa.io")
            then Ret {| status_code := 404 |} else Ret {| status_code := 200 |})
    ["aa.io"; "bb.dev"] [true; false]).
  - vm_compute. reflexivity.
  - repeat constructor.
Defined.

(** ** The scripts as shipped *)

Lemma candidate_query_inj : Inj (=) (=) (λ c : string, DnsQuery c "A").
Proof. intros c1 c2 H. by injection H. Qed.

(** Run as shipped against a resolver that answers or raises
    [DNSException], dns_check.py completes after 4212 "A" queries (702
    labels of one or two letters, six TLDs), no two of them for the same
    name. *)
Theorem dns_check_main_queries (resolve : dns_oracle) :
  (∀ q, match resolve q "A" with
        | Ret _ => True
        | Raise e => is_DNSException e = true
        end) →
  outcome (dns_check.main resolve) = Ret tt ∧
  length (queries (trace (dns_check.main resolve))) = 4212%nat ∧
  NoDup (queries (trace (dns_check.main resolve))).
Proof.
  intros H. unfold dns_check.main. rewrite (scan_trace resolve H). cbn [trace outcome].
  rewrite step_queries. split_and!.
  - done.
  - rewrite length_fmap, length_candidates. vm_compute. reflexivity.
  - apply (@NoDup_fmap_2 _ _ _ candidate_query_inj). unfold dns_check.domain_names.
    apply NoDup_candidates; apply (bool_decide_unpack _); vm_compute; exact I.
Qed.

Lemma dns_check_main_queries_witness :
  outcome (dns_check.main (λ _ _, Raise (DNSException NXDOMAIN))) = Ret tt ∧
  length (queries (trace (dns_check.main (λ _ _, Raise (DNSException NXDOMAIN)))))
  = 4212%nat ∧
  NoDup (queries (trace (dns_check.main (λ _ _, Raise (DNSException NXDOMAIN))))).
Proof.
  apply (dns_check_main_queries (λ _ _, Raise (DNSException NXDOMAIN))).
  intros q. reflexivity.
Defined.

Lemma Forall2_from_Forall {A B} (P : A → B → Prop) (l : list A) :
  Forall (λ a, ∃ b, P a b) l → ∃ k, Forall2 P l k.
Proof.
  induction 1 as [|a l [b Hb] _ [k IH]]; [by exists []|].
  exists (b :: k). by constructor.
Qed.

Lemma run_checks_queries (http : http_oracle) (ds : list string) (bs : list bool) :
  Forall2 (λ d b, outcome (rdap_checker.check_domain_rdap http d) = Ret b) ds bs →
  queries (trace (rdap_checker.run_checks http ds))
  = d ← ds; queries (trace (rdap_checker.check_domain_rdap http d)).
Proof.
  intros H. rewrite (run_checks_trace http ds bs H). cbn [trace].
  unfold queries. rewrite filter_cons_False by (simpl; done).
  induction H as [|d b ds bs _ _ IH]; [done|].
  cbn [zip_with concat]. rewrite !filter_app, IH, bind_cons.
  rewrite (filter_none _ [Stdout _]) by (by repeat constructor).
  by rewrite app_nil_r.
Qed.

(** Run as shipped against a transport that answers or raises
    [RequestException], rdap_checker.py completes: each of its nine test
    domains is well-formed and has a configured endpoint, so no
    [ValueError] is raised and exactly nine requests are sent, one per
    test domain, in list order. *)
Theorem rdap_checker_main_requests (http : http_oracle) :
  (∀ url, handled_by_rdap (http url) = true) →
  outcome (rdap_checker.main http) = Ret tt ∧
  queries (trace (rdap_checker.main http))
  = [ HttpGet "https://rdap.nic.io/domain/google.io" 10;
      HttpGet "https://rdap.nic.ai/domain/something.ai" 10;
      HttpGet "https://rdap.nic.ai/domain/randomstuff.ai" 10;
      HttpGet "https://rdap.nic.io/domain/mybrandnewdomain.io" 10;
      HttpGet "https://rdap.nic.app/domain/example.app" 10;
      HttpGet "https://rdap.nic.app/domain/unusedxyz999.app" 10;
      HttpGet "https://rdap.nic.dev/domain/coolproject.dev" 10;
      HttpGet "https://rdap.nic.dev/domain/random999999.dev" 10;
      HttpGet "https://rdap.nic.xyz/domain/nonexistentexample123.xyz" 10 ].
Proof.
  intros Hh. unfold rdap_checker.main.
  destruct (Forall2_from_Forall
              (λ d b, outcome (rdap_checker.check_domain_rdap http d) = Ret b)
              rdap_checker.test_domains) as [bs Hbs].
  { unfold rdap_checker.test_domains.
    repeat (constructor; [apply checker_returns; [vm_compute; lia|done]|]).
    constructor. }
  split.
  - by rewrite (run_checks_trace http _ bs Hbs).
  - rewrite (run_checks_queries http _ bs Hbs). unfold rdap_checker.test_domains.
    rewrite !bind_cons, !checker_queries. vm_compute. reflexivity.
Qed.

Lemma rdap_checker_main_requests_witness :
  outcome (rdap_checker.main (λ _, Ret {| status_code := 403 |})) = Ret tt ∧
  length (queries (trace (rdap_checker.main (λ _, Ret {| status_code := 403 |}))))
  = 9%nat.
Proof.
  destruct (rdap_checker_main_requests (λ _, Ret {| status_code := 403 |})) as [Ho Hq].
  - intros url. reflexivity.
  - split; [exact Ho|]. rewrite Hq. reflexivity.
Defined.
